(** * TinyBack services: the resolution / classification layer

    A shallow embedding of [tinyback/services.py].  Python values that the
    [fetch] methods return are values of [pyval]; Python exceptions are values
    of [exn]; a method that talks to the shortener is a function in the
    state-and-exception monad [M], whose state is the connection owned by the
    service instance.  The remote server and the Python library functions the
    module calls ([urlparse], [json], [HTMLParser]) are parameters. *)

From Stdlib Require Import ZArith List String Ascii Bool Lia DecimalString.
Import ListNotations.
Open Scope string_scope.

(** ** Python values and exceptions *)

#[warnings="-register-all"]
Inductive pyval : Type :=
| PyNone
| PyBool (b : bool)
| PyInt (z : Z)
| PyFloat (repr : string)
| PyStr (s : string)
| PyList (l : list pyval)
| PyDict (d : list (string * pyval)).

(** [tinyback.exceptions] together with the built-in exceptions that the
    module raises or lets escape. *)
Inductive exn : Type :=
| NoRedirectException (msg : option string)
| CodeBlockedException (msg : option string)
| BlockedException (msg : option string)
| ServiceException (msg : string)
| RuntimeError (msg : string)
| ValueError (msg : string)
| NameError (name : string)
| TypeError (msg : string)
| KeyError (key : string)
| AttributeError (msg : string)
| UnicodeDecodeError.

Inductive result (A : Type) : Type :=
| Ok (a : A)
| Raise (e : exn).
Arguments Ok {A} a.
Arguments Raise {A} e.

(** ** The outcome taxonomy *)

Inductive Outcome : Type :=
| LongURL (target : string)
| NoRedirect
| CodeBlocked (reason : option string)
| ServiceBlocked (reason : option string)
| ServiceError (message : string).

(** What a finished [fetch] call means to the caller: a returned byte string
    is the long URL, the four service exceptions are the four failure kinds,
    and anything else (a returned [None], a built-in exception) is no
    outcome at all. *)
Definition classify (r : result pyval) : option Outcome :=
  match r with
  | Ok (PyStr s) => Some (LongURL s)
  | Ok _ => None
  | Raise (NoRedirectException _) => Some NoRedirect
  | Raise (CodeBlockedException m) => Some (CodeBlocked m)
  | Raise (BlockedException m) => Some (ServiceBlocked m)
  | Raise (ServiceException m) => Some (ServiceError m)
  | Raise _ => None
  end.

Definition is_ServiceError (r : result pyval) : bool :=
  match classify r with
  | Some (ServiceError _) => true
  | _ => false
  end.

(** ** Strings *)

Definition truthy (s : string) : bool := negb (s =? "").

(** [needle in hay] *)
Fixpoint contains (needle hay : string) : bool :=
  prefix needle hay ||
  match hay with
  | EmptyString => false
  | String _ rest => contains needle rest
  end.

Definition startswith (p s : string) : bool := prefix p s.

Fixpoint drop (n : nat) (s : string) : string :=
  match n, s with
  | O, _ => s
  | S n', String _ rest => drop n' rest
  | S _, EmptyString => EmptyString
  end.

Fixpoint take (n : nat) (s : string) : string :=
  match n, s with
  | S n', String c rest => String c (take n' rest)
  | _, _ => EmptyString
  end.

Definition lower_ascii (c : ascii) : ascii :=
  let n := nat_of_ascii c in
  if (Nat.leb 65 n && Nat.leb n 90)%bool then ascii_of_nat (n + 32) else c.

Fixpoint lower (s : string) : string :=
  match s with
  | EmptyString => EmptyString
  | String c rest => String (lower_ascii c) (lower rest)
  end.

(** Whether [s.decode("ascii")] succeeds. *)
Fixpoint is_ascii (s : string) : bool :=
  match s with
  | EmptyString => true
  | String c rest => Nat.ltb (nat_of_ascii c) 128 && is_ascii rest
  end.

(** ["%i" % n] *)
Definition fmt_i (n : Z) : string := NilZero.string_of_int (Z.to_int n).

(** [dict.get] on a dictionary with string keys. *)
Fixpoint dict_get {V : Type} (k : string) (d : list (string * V)) : option V :=
  match d with
  | [] => None
  | (k', v) :: rest => if k' =? k then Some v else dict_get k rest
  end.

(** [d[k] = v] *)
Fixpoint dict_set {V : Type} (k : string) (v : V) (d : list (string * V))
  : list (string * V) :=
  match d with
  | [] => [(k, v)]
  | (k', v') :: rest =>
      if k' =? k then (k, v) :: rest else (k', v') :: dict_set k v rest
  end.

Definition status_in (s : Z) (l : list Z) : bool := existsb (Z.eqb s) l.

(** ** The HTTP exchange *)

Inductive http_method : Type := HEAD | GET.

Record request : Type := mkRequest {
  req_method : http_method;
  req_path : string;
  req_headers : list (string * string)
}.

(** [httplib.HTTPResponse]: [msg] is the header dictionary of the response,
    keyed by lower-cased header name as httplib stores it. *)
Record response : Type := mkResponse {
  status : Z;
  reason : string;
  msg : list (string * string)
}.

Definition getheader (resp : response) (name : string) : option string :=
  dict_get (lower name) (msg resp).

(** What the other end does with one request. *)
Inductive reply : Type :=
| Answer (resp : response) (body : string)
| HTTPException (e : string)
| socket_error (e : string).

(** The connection [self._conn]: the requests sent on it so far (newest
    first) and whether the socket is open. *)
Record connection : Type := mkConnection {
  sent : list request;
  is_open : bool
}.

Definition fresh_connection : connection := mkConnection [] false.

Definition M (A : Type) : Type := connection -> result A * connection.

Definition ret {A} (a : A) : M A := fun c => (Ok a, c).
Definition raise {A} (e : exn) : M A := fun c => (Raise e, c).
Definition bind {A B} (m : M A) (f : A -> M B) : M B :=
  fun c =>
    match m c with
    | (Ok a, c') => f a c'
    | (Raise e, c') => (Raise e, c')
    end.
Definition lift {A} (r : result A) : M A := fun c => (r, c).

Notation "x <- m ;; k" := (bind m (fun x => k))
  (at level 61, m at next level, right associativity).

(** [self._conn.close()] *)
Definition conn_close : M unit :=
  fun c => (Ok tt, mkConnection (sent c) false).

(** The remote end: the answer to the [n]-th request made on a connection. *)
Class Transport : Type := {
  server : nat -> request -> reply
}.

(** [self._conn.request(...)] followed by [getresponse()] and [read()];
    httplib opens the socket on demand. *)
Definition conn_exchange `{Transport} (rq : request) : connection -> reply * connection :=
  fun c => (server (List.length (sent c)) rq, mkConnection (rq :: sent c) true).

(** ** HTTPService *)

Record HTTPService : Type := mkHTTPService {
  url : string;
  http_headers : list (string * string);
  http_keepalive : bool;
  (* set by __init__ *)
  _path : string;
  _hostname : string
}.

Definition _http_fetch `{Transport} (self : HTTPService) (code : string)
    (method : http_method) : M (response * string) :=
  let headers := http_headers self in
  let headers :=
    if http_keepalive self then dict_set "Connection" "Keep-Alive" headers
    else dict_set "Connection" "close" headers in
  let headers := dict_set "Host" (_hostname self) headers in
  fun c =>
    match conn_exchange (mkRequest method (_path self ++ code) headers) c with
    | (Answer resp body, c') =>
        if http_keepalive self then (Ok (resp, body), c')
        else (Ok (resp, body), snd (conn_close c'))
    | (HTTPException e, c') =>
        (Raise (ServiceException ("HTTP exception: " ++ e)), snd (conn_close c'))
    | (socket_error e, c') =>
        (Raise (ServiceException ("Socket error: " ++ e)), snd (conn_close c'))
    end.

Definition _http_head `{Transport} (self : HTTPService) (code : string)
  : M response :=
  r <- _http_fetch self code HEAD ;; ret (fst r).

Definition _http_get `{Transport} (self : HTTPService) (code : string)
  : M (response * string) :=
  _http_fetch self code GET.

(** ** SimpleService *)

Module SimpleService.

(** The overridable members of the class.  [unexpected_http_status_of] is
    the method that [fetch] reaches through [self]. *)
Record class : Type := mkClass {
  http_status_redirect : list Z;
  http_status_no_redirect : list Z;
  http_status_code_blocked : list Z;
  http_status_blocked : list Z;
  unexpected_http_status_of : HTTPService -> string -> response -> M pyval
}.

Definition unexpected_http_status (self : HTTPService) (code : string)
    (resp : response) : M pyval :=
  raise (ServiceException ("Unexpected HTTP status " ++ fmt_i (status resp))).

Definition fetch `{Transport} (cls : class) (self : HTTPService)
    (code : string) : M pyval :=
  resp <- _http_head self code ;;
  if status_in (status resp) (http_status_redirect cls) then
    match getheader resp "Location" with
    | Some location =>
        if truthy location then ret (PyStr location)
        else raise (ServiceException "No Location header after HTTP status 301")
    | None => raise (ServiceException "No Location header after HTTP status 301")
    end
  else if status_in (status resp) (http_status_no_redirect cls) then
    raise (NoRedirectException None)
  else if status_in (status resp) (http_status_code_blocked cls) then
    raise (CodeBlockedException None)
  else if status_in (status resp) (http_status_blocked cls) then
    raise (BlockedException None)
  else unexpected_http_status_of cls self code resp.

(** The class as [SimpleService] itself defines it. *)
Definition base : class :=
  mkClass [301; 302]%Z [404]%Z [410]%Z [403; 420; 429]%Z unexpected_http_status.

End SimpleService.

(** ** Library functions

    [urlparse], [urllib], [json], [HTMLParser] and [httplib]'s constructors
    belong to Python, not to this module: they are the fields of [PyLib], and
    nothing below depends on what they compute. *)

Record ParseResult : Type := mkParseResult {
  scheme : string;
  netloc : string;
  path : string;
  params : string;
  query : string;
  fragment : string;
  hostname : option string
}.

Class PyLib : Type := {
  (** [urlparse.urlparse(url)]; it raises [ValueError] on a netloc that
      holds only one of the two brackets of an IPv6 address *)
  urlparse : string -> result ParseResult;
  (** [urlparse.parse_qs(qs)] *)
  parse_qs : string -> list (string * list string);
  (** [urllib.urlencode(params)] *)
  urlencode : list (string * string) -> string;
  (** [json.loads(data)]; [None] when it raises [ValueError] *)
  json_loads : string -> option pyval;
  (** ["%s" % v] *)
  fmt_s : pyval -> string;
  (** [HTMLParser.HTMLParser().unescape(s.decode("utf-8")).encode("utf-8")] *)
  unescape_utf8 : string -> result string;
  (** [httplib.HTTPConnection(host, timeout=30)] ([false]) and
      [httplib.HTTPSConnection(host, timeout=30)] ([true]) *)
  httplib_connection : bool -> string -> result connection
}.

(** ** The regular expressions of the module

    Every pattern handed to [re.search] is a literal, one capturing group and
    a literal; the group is a greedy or a lazy run of [.], or a run of
    characters other than a double quote.  A literal may hold an unescaped [.]. *)

Inductive atom : Type :=
| Chr (c : ascii)
| Dot.

Definition dq : string := String (ascii_of_nat 34) "".
Definition newline : ascii := ascii_of_nat 10.

Fixpoint lit (s : string) : list atom :=
  match s with
  | EmptyString => []
  | String c rest => Chr c :: lit rest
  end.

Definition atom_matches (dotall : bool) (a : atom) (c : ascii) : bool :=
  match a with
  | Chr c' => Ascii.eqb c' c
  | Dot => dotall || negb (Ascii.eqb c newline)
  end.

(** Match the atoms at the head of [s]; what follows them. *)
Fixpoint match_atoms (dotall : bool) (p : list atom) (s : string) : option string :=
  match p, s with
  | [], _ => Some s
  | a :: p', String c rest =>
      if atom_matches dotall a c then match_atoms dotall p' rest else None
  | _ :: _, EmptyString => None
  end.

Definition matches_here (dotall : bool) (p : list atom) (s : string) : bool :=
  match match_atoms dotall p s with Some _ => true | None => false end.

(** The lazy group, [.] zero or more times and as few as possible,
    followed by [suf]. *)
Fixpoint lazy_group (dotall : bool) (suf : list atom) (s : string) : option string :=
  if matches_here dotall suf s then Some ""
  else match s with
       | EmptyString => None
       | String c rest =>
           if atom_matches dotall Dot c
           then option_map (String c) (lazy_group dotall suf rest)
           else None
       end.

(** The greedy group, [.] zero or more times and as many as possible,
    followed by [suf]. *)
Fixpoint greedy_group (dotall : bool) (suf : list atom) (s : string) : option string :=
  let stop := if matches_here dotall suf s then Some "" else None in
  match s with
  | EmptyString => stop
  | String c rest =>
      if atom_matches dotall Dot c then
        match greedy_group dotall suf rest with
        | Some g => Some (String c g)
        | None => stop
        end
      else stop
  end.

(** [re.search(pre + group + suf, data).group(1)], or [None] without a
    match: the leftmost position at which the whole pattern matches. *)
Fixpoint re_search (group : bool -> list atom -> string -> option string)
    (dotall : bool) (pre suf : list atom) (data : string) : option string :=
  let here :=
    match match_atoms dotall pre data with
    | Some rest => group dotall suf rest
    | None => None
    end in
  match here with
  | Some g => Some g
  | None =>
      match data with
      | EmptyString => None
      | String _ rest => re_search group dotall pre suf rest
      end
  end.

(** The longest run of characters other than a double quote, and the rest. *)
Fixpoint span_not_dq (s : string) : string * string :=
  match s with
  | EmptyString => ("", "")
  | String c rest =>
      if Ascii.eqb c (ascii_of_nat 34) then ("", s)
      else let '(run, tl) := span_not_dq rest in (String c run, tl)
  end.

(** One or more characters other than a double quote, then [suf]. *)
Definition not_dq_plus (suf : list atom) (s : string) : option (string * string) :=
  let '(run, tl) := span_not_dq s in
  if truthy run then
    match match_atoms false suf tl with
    | Some rest => Some (run, rest)
    | None => None
    end
  else None.

(** [k in q and len(q[k]) == 1], with the value: the test both the Bitly
    and the Tinyurl parser make on a [parse_qs] dictionary before they read
    [q[k][0]]. *)
Definition one_value (k : string) (q : list (string * list string)) : option string :=
  match dict_get k q with
  | Some [v] => Some v
  | _ => None
  end.

(** ** YourlsService *)

Module YourlsService.

Record class : Type := mkClass {
  yourls_api_url : string;
  yourls_url_convert : Z
}.

(** What [__init__] leaves in [self]. *)
Record instance : Type := mkInstance {
  _path : string;
  _conn : connection
}.

Definition charset (cls : class) : result string :=
  if (yourls_url_convert cls =? 36)%Z then
    Ok "0123456789abcdefghijklmnopqrstuvwxyz"
  else if (yourls_url_convert cls =? 62)%Z then
    Ok "0123456789abcdefghijklmnopqrstuvwxyzABCDEFGHIJKLMNOPQRSTUVWXYZ"
  else Raise (RuntimeError "Bad value for yourls_url_convert parameter").

Definition __init__ `{PyLib} (cls : class) : result instance :=
  match urlparse (yourls_api_url cls) with
  | Raise e => Raise e
  | Ok parsed_url =>
      let p := if truthy (path parsed_url) then path parsed_url else "/" in
      if scheme parsed_url =? "http" then
        match httplib_connection false (netloc parsed_url) with
        | Ok c => Ok (mkInstance p c)
        | Raise e => Raise e
        end
      else if scheme parsed_url =? "https" then
        match httplib_connection true (netloc parsed_url) with
        | Ok c => Ok (mkInstance p c)
        | Raise e => Raise e
        end
      else Raise (ValueError ("Unknown scheme " ++ scheme parsed_url))
  end.

(** [fetch] reads [self._path] and works on [self._conn], the state of [M]. *)
Definition fetch `{PyLib} `{Transport} (self_path : string) (code : string)
  : M pyval :=
  let params := [("action", "expand"); ("shorturl", code); ("format", "simple")] in
  fun c =>
    match conn_exchange (mkRequest GET (self_path ++ "?" ++ urlencode params) []) c with
    | (HTTPException e, c') =>
        (Raise (ServiceException ("HTTP exception: " ++ e)), snd (conn_close c'))
    | (socket_error e, c') =>
        (Raise (ServiceException ("Socket error: " ++ e)), snd (conn_close c'))
    | (Answer resp data, c') =>
        if (status resp =? 200)%Z then
          if data =? "not found" then (Raise (NoRedirectException None), c')
          else (Ok (PyStr data), c')
        else
          (Raise (ServiceException ("Unexpected HTTP status " ++ fmt_i (status resp))), c')
    end.

End YourlsService.

(** ** Bitly *)

Module Bitly.

Definition charset : string :=
  "0123456789abcdefghijklmnopqrstuvwxyzABCDEFGHIJKLMNOPQRSTUVWXYZ-_".

(** [url] is ["http://bit.ly/"]; [__init__] splits it. *)
Definition self : HTTPService :=
  mkHTTPService "http://bit.ly/" [] true "/" "bit.ly".

(** The [ValueError] of [urlparse] is not caught. *)
Definition _parse_warning_url `{PyLib} (code : string) (url : string)
  : result pyval :=
  match urlparse url with
  | Raise e => Raise e
  | Ok url =>
      if negb (scheme url =? "http") || negb (netloc url =? "bit.ly")
         || negb (path url =? "/a/warning") then
        Raise (ServiceException "Unexpected Location header after HTTP status 302")
      else
        let query := parse_qs (query url) in
        match one_value "url" query, one_value "hash" query with
        | Some u, Some h =>
            if negb (h =? code) then
              Raise (ServiceException "Hash mismatch for HTTP status 302")
            else Ok (PyStr u)
        | _, _ =>
            Raise (ServiceException "Unexpected Location header after HTTP status 302")
        end
  end.

Definition fetch `{PyLib} `{Transport} (code : string) : M pyval :=
  resp <- _http_head self code ;;
  if (status resp =? 301)%Z then
    match getheader resp "Location" with
    | Some location =>
        if truthy location then
          if reason resp =? "Moved" then ret (PyStr location)
          else if reason resp =? "Moved Permanently" then
            _ <- conn_close ;; raise (CodeBlockedException None)
          else raise (ServiceException
                 ("Unknown HTTP reason " ++ reason resp ++ " after HTTP status 301"))
        else raise (ServiceException "No Location header after HTTP status 301")
    | None => raise (ServiceException "No Location header after HTTP status 301")
    end
  else if (status resp =? 302)%Z then
    match getheader resp "Location" with
    | Some location =>
        if truthy location then lift (_parse_warning_url code location)
        else raise (ServiceException "No Location header after HTTP status 302")
    | None => raise (ServiceException "No Location header after HTTP status 302")
    end
  else if (status resp =? 403)%Z then raise (BlockedException None)
  else if (status resp =? 404)%Z then raise (NoRedirectException None)
  else if (status resp =? 410)%Z then raise (CodeBlockedException None)
  else raise (ServiceException ("Unknown HTTP status " ++ fmt_i (status resp))).

End Bitly.

(** ** Isgd *)

Module Isgd.

Definition charset : string :=
  "0123456789abcdefghijklmnopqrstuvwxyzABCDEFGHIJKLMNOPQRSTUVWXYZ_".

Definition rate_limit : option (Z * Z) := Some (60, 60)%Z.

Definition self : HTTPService :=
  mkHTTPService "http://is.gd/" [] true "/" "is.gd".

Definition rate_limit_banner : string :=
  "<div id=" ++ dq ++ "main" ++ dq ++
  "><p>Rate limit exceeded - please wait 1 minute before accessing more shortened URLs</p></div>".

Definition disabled_marker : string :=
  "<div id=" ++ dq ++ "disabled" ++ dq ++ "><h2>Link Disabled</h2>".

Definition preview_marker : string :=
  "<p>The full original link is shown below. <b>Click the link</b> if you'd like to proceed to the destination shown:".

Definition _parse_blocked `{PyLib} (code data : string) : result pyval :=
  match re_search greedy_group false
          (lit "<p>For reference and to help those fighting spam the original destination of this URL is given below (we strongly recommend you don't visit it since it may damage your PC): -<br />")
          (lit "</p><h2>is.gd</h2><p>is.gd is a free service used to shorten long URLs.")
          data with
  | None =>
      Raise (ServiceException "Could not find target URL in 'Link Disabled' page")
  | Some g =>
      match unescape_utf8 g with
      | Raise e => Raise e
      | Ok url =>
          if url =? "" then Raise (CodeBlockedException (Some "Empty URL on preview"))
          else Ok (PyStr url)
      end
  end.

Definition _parse_preview `{PyLib} (code data : string) : result pyval :=
  match re_search greedy_group false
          (lit ("<b>Click the link</b> if you'd like to proceed to the destination shown: -<br /><a href="
                ++ dq))
          (lit (dq ++ " class=" ++ dq ++ "biglink" ++ dq ++ ">"))
          data with
  | None => Raise (ServiceException "Could not find target URL in 'Preview' page")
  | Some g =>
      match unescape_utf8 g with
      | Raise e => Raise e
      | Ok url => Ok (PyStr url)
      end
  end.

(** The method ends after its last [if]: a page with none of the three
    markers makes it return [None]. *)
Definition unexpected_http_status `{PyLib} `{Transport} (self : HTTPService)
    (code : string) (resp : response) : M pyval :=
  if negb (status resp =? 200)%Z then
    SimpleService.unexpected_http_status self code resp
  else
    r <- _http_get self code ;;
    let resp := fst r in
    let data := snd r in
    if negb (status resp =? 200)%Z then
      raise (ServiceException ("HTTP status changed from 200 to "
                               ++ fmt_i (status resp) ++ " on second request"))
    else if negb (truthy data) then
      raise (CodeBlockedException (Some "Empty response on status 200"))
    else if contains rate_limit_banner data then raise (BlockedException None)
    else if contains disabled_marker data then lift (_parse_blocked code data)
    else if contains preview_marker data then lift (_parse_preview code data)
    else ret PyNone.

Definition cls `{PyLib} `{Transport} : SimpleService.class :=
  SimpleService.mkClass [301; 302]%Z [404]%Z [502]%Z [403; 420; 429]%Z
    unexpected_http_status.

Definition fetch `{PyLib} `{Transport} (code : string) : M pyval :=
  SimpleService.fetch cls self code.

End Isgd.

(** ** Owly *)

Module Owly.

Definition charset : string :=
  "0123456789abcdefghijklmnopqrstuvwxyzABCDEFGHIJKLMNOPQRSTUVWXYZ".

Definition self : HTTPService :=
  mkHTTPService "http://ow.ly/" [] true "/" "ow.ly".

Definition unexpected_http_status `{PyLib} `{Transport} (self : HTTPService)
    (code : string) (resp : response) : M pyval :=
  if negb (status resp =? 200)%Z then
    SimpleService.unexpected_http_status self code resp
  else
    r <- _http_get self code ;;
    let resp := fst r in
    let data := snd r in
    if negb (status resp =? 200)%Z then
      raise (ServiceException ("HTTP status changed from 200 to "
                               ++ fmt_i (status resp) ++ " on second request"))
    else
      match re_search lazy_group false
              (lit ("<a class=" ++ dq ++ "btn ignore" ++ dq ++ " href=" ++ dq))
              (lit (dq ++ " title="))
              data with
      | None => raise (ServiceException "Could not find target URL in safety warning")
      | Some g =>
          url <- lift (unescape_utf8 g) ;; ret (PyStr url)
      end.

Definition cls `{PyLib} `{Transport} : SimpleService.class :=
  SimpleService.mkClass [301; 302]%Z [404]%Z [410]%Z [403; 420; 429]%Z
    unexpected_http_status.

Definition fetch `{PyLib} `{Transport} (code : string) : M pyval :=
  SimpleService.fetch cls self code.

End Owly.

(** ** Tinyurl *)

Module Tinyurl.

Definition charset : string := "0123456789abcdefghijklmnopqrstuvwxyz".

Definition self : HTTPService :=
  mkHTTPService "http://tinyurl.com/" [] true "/" "tinyurl.com".

Definition _parse_errorhelp `{PyLib} (code data : string) : result pyval :=
  match re_search lazy_group false
          (lit ("<meta http-equiv=" ++ dq ++ "refresh" ++ dq ++ " content=" ++ dq ++ "0;url="))
          (lit (dq ++ ">"))
          data with
  | None =>
      Raise (ServiceException
               ("No redirect on " ++ dq ++ "errorhelp" ++ dq ++ " page on HTTP status 200"))
  | Some g =>
      match urlparse g with
      | Raise e => Raise e
      | Ok url =>
          if negb (scheme url =? "http") || negb (netloc url =? "tinyurl.com")
             || negb (path url =? "/errorb.php") then
            Raise (ServiceException
                     ("Unexpected redirect on " ++ dq ++ "errorhelp" ++ dq ++ " page  on HTTP status 200"))
          else
            let query := parse_qs (query url) in
            match one_value "url" query, one_value "path" query with
            | Some u, Some p =>
                if negb (p =? "/" ++ code) then
                  Raise (ServiceException
                           ("Code mismatch on " ++ dq ++ "errorhelp" ++ dq ++ " on HTTP status 200"))
                else Ok (PyStr u)
            | _, _ =>
                Raise (ServiceException
                         ("Unexpected redirect on " ++ dq ++ "errorhelp" ++ dq ++ " page  on HTTP status 200"))
            end
      end
  end.

Definition _parse_tinyurl_redirect `{PyLib} (data : string) : result pyval :=
  match re_search lazy_group true
          (lit ("<p class=" ++ dq ++ "intro" ++ dq ++
                ">The URL you followed redirects back to a TinyURL and therefore we can't directly send you to the site. The URL it redirects to is <a href="
                ++ dq))
          (lit (dq ++ ">"))
          data with
  | None =>
      Raise (ServiceException
               ("No redirect on " ++ dq ++ "tinyurl redirect" ++ dq ++ " page on HTTP status 200"))
  | Some g =>
      match unescape_utf8 g with
      | Raise e => Raise e
      | Ok url => Ok (PyStr url)
      end
  end.

Definition _fetch_200 `{PyLib} `{Transport} (code : string) : M pyval :=
  r <- _http_get self code ;;
  let resp := fst r in
  let data := snd r in
  if negb (status resp =? 200)%Z then
    raise (ServiceException ("HTTP status changed from 200 to "
                             ++ fmt_i (status resp) ++ " on second request"))
  else if contains "<title>Redirecting...</title>" data then
    lift (_parse_errorhelp code data)
  else if contains "Error: TinyURL redirects to a TinyURL." data then
    lift (_parse_tinyurl_redirect data)
  else raise (ServiceException "Unexpected response on status 200").

Definition _scrub_url `{PyLib} (code url : string) : result pyval :=
  match urlparse url with
  | Raise e => Raise e
  | Ok parsed_url =>
      let on_click :=
        match hostname parsed_url with
        | Some h => (h =? "redirect.tinyurl.com") && (path parsed_url =? "/api/click")
        | None => false
        end in
      if on_click then
        match dict_get "out" (parse_qs (query parsed_url)) with
        | None => Raise (KeyError "out")
        | Some [] => Ok (PyStr url)
        | Some (v :: _) => Ok (PyStr v)
        end
      else Ok (PyStr url)
  end.

(** The pattern ends in [site.</a>] with the dot unescaped: under [re.DOTALL]
    it stands for any character. *)
Definition _preview `{PyLib} `{Transport} (code affiliate_url : string)
  : M pyval :=
  r <- _http_get self ("preview.php?num=" ++ code) ;;
  let resp := fst r in
  let data := snd r in
  if negb (status resp =? 200)%Z then
    raise (ServiceException ("Unexpected HTTP status " ++ fmt_i (status resp)
                             ++ " on preview page"))
  else
    match re_search lazy_group true
            (lit ("<a id=" ++ dq ++ "redirecturl" ++ dq ++ " href=" ++ dq))
            (lit (dq ++ ">Proceed to this site") ++ [Dot] ++ lit "</a>")
            data with
    | None => raise (ServiceException "No redirect on preview page")
    | Some g =>
        if g =? "" then lift (_scrub_url code affiliate_url)
        else url <- lift (unescape_utf8 g) ;; ret (PyStr url)
    end.

Definition fetch `{PyLib} `{Transport} (code : string) : M pyval :=
  resp <- _http_head self code ;;
  if (status resp =? 200)%Z then _fetch_200 code
  else if (status resp =? 301)%Z then
    match getheader resp "Location" with
    | Some location =>
        if truthy location then
          match getheader resp "X-tiny" with
          | Some tiny =>
              if truthy tiny && (take 3 tiny =? "aff") then _preview code location
              else ret (PyStr location)
          | None => ret (PyStr location)
          end
        else raise (CodeBlockedException (Some "No Location header after HTTP status 301"))
    | None => raise (CodeBlockedException (Some "No Location header after HTTP status 301"))
    end
  else if (status resp =? 302)%Z then raise (CodeBlockedException None)
  else if (status resp =? 404)%Z then raise (NoRedirectException None)
  else if (status resp =? 500)%Z then
    _ <- conn_close ;; raise (ServiceException "HTTP status 500")
  else raise (ServiceException ("Unknown HTTP status " ++ fmt_i (status resp))).

End Tinyurl.

(** ** Ur1ca *)

Module Ur1ca.

Definition charset : string := "0123456789abcdefghijklmnopqrstuvwxyz".

Definition rate_limit : option (Z * Z) := None.

Definition self : HTTPService :=
  mkHTTPService "http://ur1.ca/" [] true "/" "ur1.ca".

Definition cls : SimpleService.class :=
  SimpleService.mkClass [301; 302]%Z [200]%Z [410]%Z [403; 420; 429]%Z
    SimpleService.unexpected_http_status.

Definition fetch `{Transport} (code : string) : M pyval :=
  SimpleService.fetch cls self code.

End Ur1ca.

(** ** Snipurl *)

Module Snipurl.

Definition charset : string := "0123456789abcdefghijklmnopqrstuvwxyz-_~".

(** The url has no path: [__init__] takes ["/"]. *)
Definition self : HTTPService :=
  mkHTTPService "http://snipurl.com" [] false "/" "snipurl.com".

Definition unexpected_http_status `{PyLib} `{Transport} (self : HTTPService)
    (code : string) (resp : response) : M pyval :=
  if negb (status resp =? 500)%Z then
    SimpleService.unexpected_http_status self code resp
  else
    r <- _http_get self code ;;
    let resp := fst r in
    let data := snd r in
    if negb (status resp =? 500)%Z then
      raise (ServiceException ("HTTP status changed from 500 to "
                               ++ fmt_i (status resp) ++ " on second request"))
    else
      match re_search lazy_group false
              (lit ("<p>You clicked on a snipped URL, which will take you to the following looong URL: </p> <div class="
                    ++ dq ++ "quote" ++ dq ++ "><span class=" ++ dq ++ "quotet" ++ dq
                    ++ "></span><br/>"))
              (lit "</div> <br />")
              data with
      | None => raise (ServiceException "Could not find target URL on preview page")
      | Some g => url <- lift (unescape_utf8 g) ;; ret (PyStr url)
      end.

Definition cls `{PyLib} `{Transport} : SimpleService.class :=
  SimpleService.mkClass [301; 302]%Z [410]%Z [410]%Z [403; 420; 429]%Z
    unexpected_http_status.

(** A [location] with a byte above 127 makes [decode] raise
    [UnicodeDecodeError], which the method swallows. *)
Definition fetch `{PyLib} `{Transport} (code : string) : M pyval :=
  location <- SimpleService.fetch cls self code ;;
  match location with
  | PyStr l =>
      if is_ascii l && (l =? "/site/getprivate?snip=" ++ code) then
        raise (CodeBlockedException (Some "Private key required"))
      else ret location
  | _ => raise (AttributeError "decode")
  end.

End Snipurl.

(** ** Googl *)

(** [k in v] *)
Definition py_contains (k : string) (v : pyval) : result bool :=
  match v with
  | PyDict d => Ok (match dict_get k d with Some _ => true | None => false end)
  | PyList l =>
      Ok (existsb (fun x => match x with PyStr s => s =? k | _ => false end) l)
  | PyStr s => Ok (contains k s)
  | PyNone => Raise (TypeError "argument of type 'NoneType' is not iterable")
  | PyBool _ => Raise (TypeError "argument of type 'bool' is not iterable")
  | PyInt _ => Raise (TypeError "argument of type 'int' is not iterable")
  | PyFloat _ => Raise (TypeError "argument of type 'float' is not iterable")
  end.

(** [v[k]] for a string [k] *)
Definition py_getitem (v : pyval) (k : string) : result pyval :=
  match v with
  | PyDict d =>
      match dict_get k d with
      | Some x => Ok x
      | None => Raise (KeyError k)
      end
  | PyList _ => Raise (TypeError "list indices must be integers, not str")
  | PyStr _ => Raise (TypeError "string indices must be integers, not str")
  | PyNone => Raise (TypeError "'NoneType' object has no attribute '__getitem__'")
  | PyBool _ => Raise (TypeError "'bool' object has no attribute '__getitem__'")
  | PyInt _ => Raise (TypeError "'int' object has no attribute '__getitem__'")
  | PyFloat _ => Raise (TypeError "'float' object has no attribute '__getitem__'")
  end.

(** [v != s] for a string [s] *)
Definition py_ne_str (v : pyval) (s : string) : bool :=
  match v with
  | PyStr s' => negb (s' =? s)
  | _ => true
  end.

Definition rbind {A B} (r : result A) (f : A -> result B) : result B :=
  match r with
  | Ok a => f a
  | Raise e => Raise e
  end.

Module Googl.

Definition rate_limit : option (Z * Z) := Some (1, 5)%Z.

Definition charset : string :=
  "0123456789abcdefghijklmnopqrstuvwxyzABCDEFGHIJKLMNOPQRSTUVWXYZ".

Definition _parse_json `{PyLib} (data : string) : result pyval :=
  match json_loads data with
  | None => Raise (ServiceException "Could not decode response")
  | Some data =>
      rbind (py_contains "kind" data) (fun has_kind =>
      rbind (if negb has_kind then Ok true
             else rbind (py_getitem data "kind") (fun k =>
                  Ok (py_ne_str k "urlshortener#url"))) (fun bad_kind =>
      if bad_kind then Raise (ServiceException "No/bad type given")
      else
        rbind (py_contains "status" data) (fun has_status =>
        if negb has_status then Raise (ServiceException "No status given")
        else
          rbind (py_contains "longUrl" data) (fun has_url =>
          if negb has_url then
            rbind (py_getitem data "status") (fun st =>
            Raise (CodeBlockedException (Some ("Status: " ++ fmt_s st))))
          else py_getitem data "longUrl"))))
  end.

Definition fetch `{PyLib} `{Transport} (code : string) : M pyval :=
  fun c =>
    match conn_exchange
            (mkRequest GET ("/urlshortener/v1/url?shortUrl=http://goo.gl/" ++ code) []) c with
    | (HTTPException e, c') =>
        (Raise (ServiceException ("HTTP exception: " ++ e)), snd (conn_close c'))
    | (socket_error e, c') =>
        (Raise (ServiceException ("Socket error: " ++ e)), snd (conn_close c'))
    | (Answer resp data, c') =>
        if (status resp =? 200)%Z then (_parse_json data, c')
        else if (status resp =? 403)%Z then (Raise (BlockedException None), c')
        else if (status resp =? 404)%Z then (Raise (NoRedirectException None), c')
        else
          (Raise (ServiceException ("Unexpected HTTP status " ++ fmt_i (status resp))), c')
    end.

End Googl.

(** ** Trimnew *)

Module Trimnew.

Definition charset : string := "0123456789abcdefghijklmnopqrstuvwxyz".

Definition self : HTTPService :=
  mkHTTPService "http://tr.im/" [] true "/" "tr.im".

Definition cls : SimpleService.class :=
  SimpleService.mkClass [301]%Z [] [] [404]%Z SimpleService.unexpected_http_status.

Definition fetch `{Transport} (code : string) : M pyval :=
  if code =? "500" then raise (CodeBlockedException None)
  else
    url <- SimpleService.fetch cls self code ;;
    match url with
    | PyStr u =>
        if u =? "http://tr.im/404" then raise (NoRedirectException None)
        else ret url
    | _ => ret url
    end.

End Trimnew.

(** ** Postly and Wpme *)

Module Postly.

Definition charset : string :=
  "0123456789abcdefghijklmnopqrstuvwxyzABCDEFGHIJKLMNOPQRSTUVWXYZ".

Definition rate_limit : option (Z * Z) := None.

Definition self : HTTPService :=
  mkHTTPService "https://post.ly/" [] true "/" "post.ly".

Definition cls : SimpleService.class :=
  SimpleService.mkClass [301]%Z [302]%Z [410]%Z [403; 420; 429]%Z
    SimpleService.unexpected_http_status.

Definition fetch `{Transport} (code : string) : M pyval :=
  SimpleService.fetch cls self code.

End Postly.

Module Wpme.

Definition charset : string :=
  "0123456789abcdefghijklmnopqrstuvwxyzABCDEFGHIJKLMNOPQRSTUVWXYZ-_".

Definition self : HTTPService :=
  mkHTTPService "http://wp.me/" [] true "/" "wp.me".

Definition fetch `{Transport} (code : string) : M pyval :=
  SimpleService.fetch SimpleService.base self code.

End Wpme.

(** ** BaseVisibliService, VisibliHex and Visibli *)

Module BaseVisibliService.

Definition rate_limit : option (Z * Z) := Some (1, 5)%Z.

Definition http_headers : list (string * string) :=
  [("User-Agent",
    "Mozilla/5.0 (Macintosh; Intel Mac OS X 10.8.3) Gecko/20120431 Firefox/18.0")].

(** The first match of [<iframe id=], a quoted run, [ src=], a quoted run
    and [>]; the second run. *)
Fixpoint search_iframe (data : string) : option string :=
  let here :=
    match match_atoms false (lit ("<iframe id=" ++ dq)) data with
    | Some rest =>
        match not_dq_plus (lit (dq ++ " src=" ++ dq)) rest with
        | Some (_, rest') =>
            match not_dq_plus (lit (dq ++ ">")) rest' with
            | Some (src, _) => Some src
            | None => None
            end
        | None => None
        end
    | None => None
    end in
  match here with
  | Some g => Some g
  | None =>
      match data with
      | EmptyString => None
      | String _ rest => search_iframe rest
      end
  end.

(** [super(BaseVisbliService, self)] names a class that does not exist:
    evaluating it raises [NameError]. *)
Definition unexpected_http_status `{PyLib} `{Transport} (self : HTTPService)
    (code : string) (resp : response) : M pyval :=
  if (status resp =? 302)%Z then
    match getheader resp "Location" with
    | Some location =>
        if truthy location && (contains "sharedby" location || contains "visibli" location)
        then raise (NoRedirectException None)
        else if truthy location && startswith "http://yahoo.com" location
        then raise (BlockedException (Some ("Banned (location=" ++ location ++ ")")))
        else ret (PyStr location)
    | None => ret PyNone
    end
  else if negb (status resp =? 200)%Z then
    raise (NameError "BaseVisbliService")
  else
    r <- _http_get self code ;;
    let resp := fst r in
    let data := snd r in
    if negb (status resp =? 200)%Z then
      raise (ServiceException ("HTTP status changed from 200 to "
                               ++ fmt_i (status resp) ++ " on second request"))
    else
      match search_iframe data with
      | None =>
          if contains "Undefined index:  HTTP_USER_AGENT" data then
            raise (ServiceException "Website broken about user-agent")
          else raise (ServiceException "No iframe url found")
      | Some g => url <- lift (unescape_utf8 g) ;; ret (PyStr url)
      end.

Definition cls `{PyLib} `{Transport} : SimpleService.class :=
  SimpleService.mkClass [301]%Z [] [410]%Z [403; 420; 429]%Z
    unexpected_http_status.

End BaseVisibliService.

Module VisibliHex.

Definition charset : string := "0123456789abcdef".

Definition self : HTTPService :=
  mkHTTPService "http://links.sharedby.co/links/" BaseVisibliService.http_headers
    true "/links/" "links.sharedby.co".

Definition fetch `{PyLib} `{Transport} (code : string) : M pyval :=
  SimpleService.fetch BaseVisibliService.cls self code.

End VisibliHex.

Module Visibli.

Definition charset : string :=
  "0123456789abcdefghijklmnopqrstuvwxyzABCDEFGHIJKLMNOPQRSTUVWXYZ".

Definition self : HTTPService :=
  mkHTTPService "http://sharedby.co/" BaseVisibliService.http_headers
    true "/" "sharedby.co".

Definition fetch `{PyLib} `{Transport} (code : string) : M pyval :=
  SimpleService.fetch BaseVisibliService.cls self code.

End Visibli.

(** ** Vbly and Arsehat *)

Module Vbly.

Definition cls : YourlsService.class :=
  YourlsService.mkClass "http://vbly.us/yourls-api.php" 36.

End Vbly.

Module Arsehat.

Definition cls : YourlsService.class :=
  YourlsService.mkClass "http://arseh.at/api.php" 36.

End Arsehat.

(** ** Pixorial, Twitter and Trim *)

Module Pixorial.

Definition charset : string := "0123456789abcdefghijklmnopqrstuvwxyz".

Definition rate_limit : option (Z * Z) := Some (20, 1)%Z.

Definition self : HTTPService :=
  mkHTTPService "http://myhub.pixorial.com/s/" [] false "/s/" "myhub.pixorial.com".

Definition fetch `{Transport} (code : string) : M pyval :=
  let cls := SimpleService.base in
  resp <- _http_head self code ;;
  if status_in (status resp) (SimpleService.http_status_redirect cls) then
    match getheader resp "Location" with
    | Some location =>
        if location =? "http://myhub.pixorial.com/" then
          raise (NoRedirectException (Some "Redirected to home page"))
        else if truthy location then ret (PyStr location)
        else raise (ServiceException "No Location header after HTTP status 301")
    | None => raise (ServiceException "No Location header after HTTP status 301")
    end
  else if status_in (status resp) (SimpleService.http_status_no_redirect cls) then
    raise (NoRedirectException None)
  else if status_in (status resp) (SimpleService.http_status_code_blocked cls) then
    raise (CodeBlockedException None)
  else if status_in (status resp) (SimpleService.http_status_blocked cls) then
    raise (BlockedException None)
  else SimpleService.unexpected_http_status_of cls self code resp.

End Pixorial.

Module Twitter.

Definition charset : string :=
  "0123456789abcdefghijklmnopqrstuvwxyzABCDEFGHIJKLMNOPQRSTUVWXYZ".

Definition rate_limit : option (Z * Z) := Some (20, 1)%Z.

Definition self : HTTPService :=
  mkHTTPService "http://t.co/" [] false "/" "t.co".

Definition fetch `{Transport} (code : string) : M pyval :=
  SimpleService.fetch SimpleService.base self code.

End Twitter.

Module Trim.

Definition charset : string := "0123456789abcdefghijklmnopqrstuvwxyz".

Definition rate_limit : option (Z * Z) := Some (20, 1)%Z.

Definition self : HTTPService :=
  mkHTTPService "http://tr.im/" [] true "/" "tr.im".

Definition fetch `{Transport} (code : string) : M pyval :=
  let cls := SimpleService.base in
  resp <- _http_head self code ;;
  if status_in (status resp) (SimpleService.http_status_redirect cls) then
    match getheader resp "Location" with
    | Some location =>
        if negb (code =? "404") && (location =? "http://tr.im/404") then
          raise (NoRedirectException (Some "Redirected to 404 page"))
        else if truthy location then ret (PyStr location)
        else raise (ServiceException "No Location header after HTTP status 301")
    | None => raise (ServiceException "No Location header after HTTP status 301")
    end
  else if status_in (status resp) (SimpleService.http_status_no_redirect cls) then
    raise (NoRedirectException None)
  else if status_in (status resp) (SimpleService.http_status_code_blocked cls) then
    raise (CodeBlockedException None)
  else if status_in (status resp) (SimpleService.http_status_blocked cls) then
    raise (BlockedException None)
  else SimpleService.unexpected_http_status_of cls self code resp.

End Trim.


(** ** A reference library

    Executable counterparts of the library functions, after CPython 2.7's
    [urlparse.py], [urllib.py], [json] and [HTMLParser], used to run the
    services on concrete exchanges.  The theorems on the services hold for
    every [PyLib]; only the worked examples use this one. *)

Module PyRef.

(** [s.split(c, 1)]: the text before the first [c] and, when there is one,
    the text after it. *)
Fixpoint split1 (c : ascii) (s : string) : string * option string :=
  match s with
  | EmptyString => ("", None)
  | String a r =>
      if Ascii.eqb a c then ("", Some r)
      else let '(b, o) := split1 c r in (String a b, o)
  end.

(** [s.split(c)] *)
Fixpoint split_all (c : ascii) (s : string) : list string :=
  match s with
  | EmptyString => [""]
  | String a r =>
      if Ascii.eqb a c then "" :: split_all c r
      else match split_all c r with
           | x :: xs => String a x :: xs
           | [] => [String a ""]
           end
  end.

Fixpoint all_chars (p : ascii -> bool) (s : string) : bool :=
  match s with
  | EmptyString => true
  | String a r => p a && all_chars p r
  end.

Definition in_range (lo hi : nat) (c : ascii) : bool :=
  Nat.leb lo (nat_of_ascii c) && Nat.leb (nat_of_ascii c) hi.

Definition is_digit (c : ascii) : bool := in_range 48 57 c.
Definition is_alpha (c : ascii) : bool := in_range 65 90 c || in_range 97 122 c.

Definition scheme_char (c : ascii) : bool :=
  is_alpha c || is_digit c || Ascii.eqb c "+" || Ascii.eqb c "-" || Ascii.eqb c ".".

(** The text up to the first of [/], [?] and [#], and the text from it on. *)
Fixpoint _splitnetloc (s : string) : string * string :=
  match s with
  | EmptyString => ("", "")
  | String a r =>
      if Ascii.eqb a "/" || Ascii.eqb a "?" || Ascii.eqb a "#" then ("", s)
      else let '(n, rest) := _splitnetloc r in (String a n, rest)
  end.

(** [urlparse.urlsplit]: scheme, netloc, path, query and fragment. *)
Definition urlsplit (url : string) : string * string * string * string * string :=
  let '(sch, url) :=
    match split1 ":" url with
    | (pre, Some rest) =>
        if pre =? "" then ("", url)
        else if pre =? "http" then ("http", rest)
        else if all_chars scheme_char pre
                && ((rest =? "") || negb (all_chars is_digit rest))
        then (lower pre, rest)
        else ("", url)
    | (_, None) => ("", url)
    end in
  let '(nl, url) :=
    if prefix "//" url then _splitnetloc (drop 2 url) else ("", url) in
  let '(url, frag) :=
    match split1 "#" url with
    | (u, Some f) => (u, f)
    | (u, None) => (u, "")
    end in
  let '(url, q) :=
    match split1 "?" url with
    | (u, Some q) => (u, q)
    | (u, None) => (u, "")
    end in
  (sch, nl, url, q, frag).

Definition uses_params : list string :=
  ["ftp"; "hdl"; "prospero"; "http"; "imap"; "https"; "shttp"; "rtsp"; "rtspu";
   "sip"; "sips"; "mms"; ""; "sftp"; "tel"].

(** The last segment of a path, split at its first [;]. *)
Fixpoint _splitparams (url : string) : string * string :=
  match split1 "/" url with
  | (seg, None) =>
      match split1 ";" seg with
      | (p, Some ps) => (p, ps)
      | (p, None) => (p, "")
      end
  | (seg, Some _) =>
      match url with
      | EmptyString => ("", "")
      | String a r =>
          let '(p, ps) := _splitparams r in (String a p, ps)
      end
  end.

Fixpoint last_of (l : list string) (d : string) : string :=
  match l with
  | [] => d
  | [x] => x
  | _ :: r => last_of r d
  end.

(** [ParseResult.hostname] *)
Definition hostname_of (nl : string) : option string :=
  let nl := last_of (split_all "@" nl) "" in
  if contains "[" nl && contains "]" nl then
    Some (lower (drop 1 (fst (split1 "]" nl))))
  else if contains ":" nl then Some (lower (fst (split1 ":" nl)))
  else if nl =? "" then None
  else Some (lower nl).

(** [urlsplit] refuses a netloc that holds only one of the two brackets
    of an IPv6 address. *)
Definition unbalanced_brackets (nl : string) : bool :=
  (contains "[" nl && negb (contains "]" nl))
  || (contains "]" nl && negb (contains "[" nl)).

Definition urlparse (url : string) : result ParseResult :=
  let '(sch, nl, p, q, frag) := urlsplit url in
  if unbalanced_brackets nl then Raise (ValueError "Invalid IPv6 URL")
  else
    let '(p, ps) :=
      if existsb (String.eqb sch) uses_params && contains ";" p
      then _splitparams p else (p, "") in
    Ok (mkParseResult sch nl p ps q frag (hostname_of nl)).

Definition hex_val (c : ascii) : option nat :=
  let n := nat_of_ascii c in
  if in_range 48 57 c then Some (n - 48)
  else if in_range 65 70 c then Some (n - 55)
  else if in_range 97 102 c then Some (n - 87)
  else None.

(** [urllib.unquote] after [+] has been turned into a blank. *)
Fixpoint unquote_plus (s : string) : string :=
  match s with
  | EmptyString => ""
  | String a r =>
      if Ascii.eqb a "+" then String " " (unquote_plus r)
      else if Ascii.eqb a "%" then
        match r with
        | String h (String l r') =>
            match hex_val h, hex_val l with
            | Some x, Some y => String (ascii_of_nat (16 * x + y)) (unquote_plus r')
            | _, _ => String a (unquote_plus r)
            end
        | _ => String a (unquote_plus r)
        end
      else String a (unquote_plus r)
  end.

(** [d.setdefault(k, []).append(v)] *)
Fixpoint dict_append (k v : string) (d : list (string * list string))
  : list (string * list string) :=
  match d with
  | [] => [(k, [v])]
  | (k', vs) :: rest =>
      if k' =? k then (k', (vs ++ [v])%list) :: rest else (k', vs) :: dict_append k v rest
  end.

(** [urlparse.parse_qs] with its defaults: fields without [=] and fields
    with a blank value are dropped. *)
Definition parse_qs (qs : string) : list (string * list string) :=
  let fields := flat_map (split_all ";") (split_all "&" qs) in
  fold_left
    (fun d field =>
       match split1 "=" field with
       | (name, Some value) =>
           if truthy value then dict_append (unquote_plus name) (unquote_plus value) d
           else d
       | (_, None) => d
       end)
    fields [].

Definition hex_digit (n : nat) : ascii :=
  if Nat.ltb n 10 then ascii_of_nat (48 + n) else ascii_of_nat (55 + n).

Definition always_safe (c : ascii) : bool :=
  is_alpha c || is_digit c || Ascii.eqb c "_" || Ascii.eqb c "." || Ascii.eqb c "-".

(** [urllib.quote_plus] *)
Fixpoint quote_plus (s : string) : string :=
  match s with
  | EmptyString => ""
  | String a r =>
      if always_safe a then String a (quote_plus r)
      else if Ascii.eqb a " " then String "+" (quote_plus r)
      else
        let n := nat_of_ascii a in
        String "%" (String (hex_digit (n / 16)) (String (hex_digit (n mod 16)) (quote_plus r)))
  end.

Definition urlencode (params : list (string * string)) : string :=
  String.concat "&" (map (fun kv => quote_plus (fst kv) ++ "=" ++ quote_plus (snd kv)) params).

(** *** JSON *)

Definition is_ws (c : ascii) : bool :=
  Ascii.eqb c " " || Ascii.eqb c (ascii_of_nat 9) || Ascii.eqb c (ascii_of_nat 10)
  || Ascii.eqb c (ascii_of_nat 13).

Fixpoint skip_ws (s : string) : string :=
  match s with
  | String c r => if is_ws c then skip_ws r else s
  | EmptyString => s
  end.

Definition json_escape (e : ascii) : option ascii :=
  if Ascii.eqb e (ascii_of_nat 34) then Some e
  else if Ascii.eqb e "\" then Some e
  else if Ascii.eqb e "/" then Some e
  else if Ascii.eqb e "b" then Some (ascii_of_nat 8)
  else if Ascii.eqb e "f" then Some (ascii_of_nat 12)
  else if Ascii.eqb e "n" then Some (ascii_of_nat 10)
  else if Ascii.eqb e "r" then Some (ascii_of_nat 13)
  else if Ascii.eqb e "t" then Some (ascii_of_nat 9)
  else None.

(** The text of a string whose opening quote has been read, and what
    follows its closing quote. *)
Fixpoint json_string (s : string) : option (string * string) :=
  match s with
  | EmptyString => None
  | String c r =>
      if Ascii.eqb c (ascii_of_nat 34) then Some ("", r)
      else if Ascii.eqb c "\" then
        match r with
        | String e r' =>
            match json_escape e, json_string r' with
            | Some ch, Some (t, rest) => Some (String ch t, rest)
            | _, _ => None
            end
        | EmptyString => None
        end
      else if Nat.ltb (nat_of_ascii c) 32 then None
      else
        match json_string r with
        | Some (t, rest) => Some (String c t, rest)
        | None => None
        end
  end.

Fixpoint span_digits (s : string) : string * string :=
  match s with
  | String c r =>
      if is_digit c then let '(d, rest) := span_digits r in (String c d, rest)
      else ("", s)
  | EmptyString => ("", "")
  end.

Fixpoint Z_of_digits (acc : Z) (s : string) : Z :=
  match s with
  | String c r => Z_of_digits (10 * acc + Z.of_nat (nat_of_ascii c - 48))%Z r
  | EmptyString => acc
  end.

(** A JSON number: an integer, or the text of a number with a fraction or
    an exponent. *)
Definition json_number (s : string) : option (pyval * string) :=
  let '(neg, s1) :=
    match s with
    | String c r => if Ascii.eqb c "-" then (true, r) else (false, s)
    | EmptyString => (false, s)
    end in
  let '(ip, s2) := span_digits s1 in
  if (ip =? "") || (prefix "0" ip && negb (ip =? "0")) then None
  else
    let '(frac, s3) :=
      match s2 with
      | String c r =>
          if Ascii.eqb c "." then
            let '(d, rest) := span_digits r in
            if d =? "" then (None, s2) else (Some ("." ++ d), rest)
          else (Some "", s2)
      | EmptyString => (Some "", s2)
      end in
    match frac with
    | None => None
    | Some fr =>
        let '(ex, s4) :=
          match s3 with
          | String c r =>
              if Ascii.eqb c "e" || Ascii.eqb c "E" then
                let '(sg, r1) :=
                  match r with
                  | String c1 r' =>
                      if Ascii.eqb c1 "+" || Ascii.eqb c1 "-" then (String c1 "", r')
                      else ("", r)
                  | EmptyString => ("", r)
                  end in
                let '(d, rest) := span_digits r1 in
                if d =? "" then ("", s3) else (String c sg ++ d, rest)
              else ("", s3)
          | EmptyString => ("", s3)
          end in
        if (fr =? "") && (ex =? "") then
          Some (PyInt (if neg then - Z_of_digits 0 ip else Z_of_digits 0 ip)%Z, s4)
        else Some (PyFloat ((if neg then "-" else "") ++ ip ++ fr ++ ex), s4)
    end.

Inductive jmode : Type :=
| JValue
| JElems (acc : list pyval)
| JMembers (acc : list (string * pyval)).

(** One value, the rest of an array or the rest of an object. *)
Fixpoint json_parse (fuel : nat) (m : jmode) (s : string) : option (pyval * string) :=
  match fuel with
  | O => None
  | S f =>
      let s := skip_ws s in
      match m with
      | JValue =>
          match s with
          | EmptyString => None
          | String c r =>
              if Ascii.eqb c (ascii_of_nat 34) then
                match json_string r with
                | Some (t, rest) => Some (PyStr t, rest)
                | None => None
                end
              else if Ascii.eqb c "[" then
                match skip_ws r with
                | String c2 r2 =>
                    if Ascii.eqb c2 "]" then Some (PyList [], r2)
                    else json_parse f (JElems []) r
                | EmptyString => None
                end
              else if Ascii.eqb c "{" then
                match skip_ws r with
                | String c2 r2 =>
                    if Ascii.eqb c2 "}" then Some (PyDict [], r2)
                    else json_parse f (JMembers []) r
                | EmptyString => None
                end
              else if prefix "null" s then Some (PyNone, drop 4 s)
              else if prefix "true" s then Some (PyBool true, drop 4 s)
              else if prefix "false" s then Some (PyBool false, drop 5 s)
              else json_number s
          end
      | JElems acc =>
          match json_parse f JValue s with
          | Some (v, rest) =>
              match skip_ws rest with
              | String c r =>
                  if Ascii.eqb c "," then json_parse f (JElems (acc ++ [v])%list) r
                  else if Ascii.eqb c "]" then Some (PyList (acc ++ [v])%list, r)
                  else None
              | EmptyString => None
              end
          | None => None
          end
      | JMembers acc =>
          match s with
          | String c r =>
              if Ascii.eqb c (ascii_of_nat 34) then
                match json_string r with
                | Some (k, rest) =>
                    match skip_ws rest with
                    | String c2 r2 =>
                        if Ascii.eqb c2 ":" then
                          match json_parse f JValue r2 with
                          | Some (v, rest2) =>
                              match skip_ws rest2 with
                              | String c3 r3 =>
                                  if Ascii.eqb c3 "," then
                                    json_parse f (JMembers (dict_set k v acc)) r3
                                  else if Ascii.eqb c3 "}" then
                                    Some (PyDict (dict_set k v acc), r3)
                                  else None
                              | EmptyString => None
                              end
                          | None => None
                          end
                        else None
                    | EmptyString => None
                    end
                | None => None
                end
              else None
          | EmptyString => None
          end
      end
  end.

Definition json_loads (s : string) : option pyval :=
  match json_parse (2 * String.length s + 2) JValue s with
  | Some (v, rest) => if skip_ws rest =? "" then Some v else None
  | None => None
  end.

(** [repr(v)] for a decoded JSON value, whose strings are [unicode]. *)
Fixpoint py_repr (v : pyval) : string :=
  match v with
  | PyNone => "None"
  | PyBool b => if b then "True" else "False"
  | PyInt z => fmt_i z
  | PyFloat r => r
  | PyStr s => "u'" ++ s ++ "'"
  | PyList l => "[" ++ String.concat ", " (map py_repr l) ++ "]"
  | PyDict d =>
      "{" ++ String.concat ", "
               (map (fun kv => "u'" ++ fst kv ++ "': " ++ py_repr (snd kv)) d) ++ "}"
  end.

Definition fmt_s (v : pyval) : string :=
  match v with
  | PyStr s => s
  | _ => py_repr v
  end.

(** *** HTMLParser *)

(** Whether the bytes are well-formed UTF-8; [need] continuation bytes are
    still due. *)
Fixpoint utf8_ok (need : nat) (s : string) : bool :=
  match s with
  | EmptyString => Nat.eqb need 0
  | String c r =>
      match need with
      | S n => in_range 128 191 c && utf8_ok n r
      | O =>
          if in_range 0 127 c then utf8_ok 0 r
          else if in_range 194 223 c then utf8_ok 1 r
          else if in_range 224 239 c then utf8_ok 2 r
          else if in_range 240 244 c then utf8_ok 3 r
          else false
      end
  end.

(** The five entities of XML; [skip] characters of an entity just replaced
    are still to be dropped. *)
Fixpoint unescape (skip : nat) (s : string) : string :=
  match s with
  | EmptyString => ""
  | String c r =>
      match skip with
      | S n => unescape n r
      | O =>
          if prefix "&amp;" s then String "&" (unescape 4 r)
          else if prefix "&lt;" s then String "<" (unescape 3 r)
          else if prefix "&gt;" s then String ">" (unescape 3 r)
          else if prefix "&quot;" s then String (ascii_of_nat 34) (unescape 5 r)
          else if prefix "&apos;" s then String "'" (unescape 5 r)
          else String c (unescape 0 r)
      end
  end.

Definition unescape_utf8 (s : string) : result string :=
  if utf8_ok 0 s then Ok (unescape 0 s) else Raise UnicodeDecodeError.

End PyRef.

#[export] Instance py_ref : PyLib := {|
  urlparse := PyRef.urlparse;
  parse_qs := PyRef.parse_qs;
  urlencode := PyRef.urlencode;
  json_loads := PyRef.json_loads;
  fmt_s := PyRef.fmt_s;
  unescape_utf8 := PyRef.unescape_utf8;
  httplib_connection := fun _ _ => Ok fresh_connection
|}.

(** A server that answers the [n]-th request with the [n]-th reply of a
    script, and times out after the last one. *)
Definition scripted (replies : list reply) : Transport :=
  {| server := fun n _ => nth n replies (socket_error "timed out") |}.

(** The result of running a method on a connection not yet used. *)
Definition run {A} (m : M A) : result A := fst (m fresh_connection).

(** ** Worked exchanges *)

Definition resp_of (st : Z) (hdrs : list (string * string)) : response :=
  mkResponse st "" hdrs.

Definition moved_to (st : Z) (phrase location : string) : response :=
  mkResponse st phrase [("location", location)].

(** A page of is.gd that carries none of the markers the client knows. *)
Definition isgd_unknown_page : string := "<html><body>hello</body></html>".

(** The second exchange of a re-fetching hook answers the first exchange's
    status with another one: whatever its body, the call ends in
    [ServiceException] on the connection as the second exchange left it. *)
Definition second_exchange_checked `{Transport} (fetch : string -> M pyval)
    (self : HTTPService) (first : Z) : Prop :=
  forall code c resp1 c1 resp2 data c2,
    _http_head self code c = (Ok resp1, c1) ->
    status resp1 = first ->
    _http_get self code c1 = (Ok (resp2, data), c2) ->
    status resp2 <> status resp1 ->
    exists m, fetch code c = (Raise (ServiceException m), c2).

(** The link that [Tinyurl._preview] looks for in the preview page. *)
Definition preview_link (data : string) : option string :=
  re_search lazy_group true
    (lit ("<a id=" ++ dq ++ "redirecturl" ++ dq ++ " href=" ++ dq))
    (lit (dq ++ ">Proceed to this site") ++ [Dot] ++ lit "</a>")%list data.

(** The second exchange of Tinyurl's affiliate preview asks for another
    page than the first one, and is held against 200, not against the 301
    of the first exchange: with another status the call ends in
    [ServiceException] on the connection as the second exchange left it,
    and with 200 the link of the second body is the result. *)
Definition preview_exchange_checked `{PyLib} `{Transport} : Prop :=
  forall code c resp1 c1 location tiny resp2 data c2,
    _http_head Tinyurl.self code c = (Ok resp1, c1) ->
    status resp1 = 301%Z ->
    getheader resp1 "Location" = Some location -> location <> "" ->
    getheader resp1 "X-tiny" = Some tiny -> take 3 tiny = "aff" ->
    _http_get Tinyurl.self ("preview.php?num=" ++ code) c1 = (Ok (resp2, data), c2) ->
    (status resp2 <> 200%Z ->
     exists m, Tinyurl.fetch code c = (Raise (ServiceException m), c2))
    /\ (status resp2 = 200%Z ->
        forall g url,
          preview_link data = Some g -> g <> "" -> unescape_utf8 g = Ok url ->
          Tinyurl.fetch code c = (Ok (PyStr url), c2)).

(** What [Bitly._parse_warning_url] asks of a [Location] before it trusts
    the target [u] in it. *)
Definition trusted_warning `{PyLib} (code location u : string) : Prop :=
  exists parsed,
    urlparse location = Ok parsed
    /\ scheme parsed = "http" /\ netloc parsed = "bit.ly" /\ path parsed = "/a/warning"
    /\ dict_get "url" (parse_qs (query parsed)) = Some [u]
    /\ dict_get "hash" (parse_qs (query parsed)) = Some [code].

(** The one request [YourlsService.fetch] makes. *)
Definition yourls_request `{PyLib} (self_path code : string) : request :=
  mkRequest GET
    (self_path ++ "?"
     ++ urlencode [("action", "expand"); ("shorturl", code); ("format", "simple")])
    [].

(** A [Location] that bit.ly's warning page could carry for the code [abc]. *)
Definition warning_location : string :=
  "http://bit.ly/a/warning?url=http%3A%2F%2Fexample.org%2Fx&hash=abc".

(** The one request [Googl.fetch] makes. *)
Definition googl_request (code : string) : request :=
  mkRequest GET ("/urlshortener/v1/url?shortUrl=http://goo.gl/" ++ code) [].

(** A Yourls installation configured with a base that is neither 36 nor 62. *)
Definition yourls_base10 : YourlsService.class :=
  YourlsService.mkClass "http://vbly.us/yourls-api.php" 10.

(** The connection after the head of a scripted exchange. *)
Definition after_head (self : HTTPService) (code : string) : connection :=
  mkConnection
    [mkRequest HEAD (_path self ++ code)
       (dict_set "Host" (_hostname self)
          (dict_set "Connection" "Keep-Alive" (http_headers self)))] true.

(** A [Location] whose netloc opens a bracket that it never closes. *)
Definition bracket_location : string :=
  "http://[bit.ly/a/warning?url=http%3A%2F%2Fexample.org%2Fx&hash=abc".

(** The answer of tinyurl.com to the HEAD of an affiliate link, and a
    preview page that names the target. *)
Definition tinyurl_affiliate : response :=
  mkResponse 301 "Moved"
    [("location", "http://redirect.tinyurl.com/api/click?out=x"); ("x-tiny", "aff 0.01")].

Definition tinyurl_preview_page : string :=
  "<html><a id=" ++ dq ++ "redirecturl" ++ dq ++ " href=" ++ dq ++ "http://example.org/"
  ++ dq ++ ">Proceed to this site.</a></html>".

(** A JSON value that is neither an object, an array nor a string. *)
Definition json_scalar (v : pyval) : bool :=
  match v with
  | PyNone | PyBool _ | PyInt _ | PyFloat _ => true
  | _ => false
  end.

(** A JSON object with the given string fields, as goo.gl's API writes it. *)
Definition json_object (fields : list (string * string)) : string :=
  "{" ++ String.concat ", "
           (map (fun kv => dq ++ fst kv ++ dq ++ ": " ++ dq ++ snd kv ++ dq) fields)
  ++ "}".

Definition googl_body_ok : string :=
  json_object [("kind", "urlshortener#url"); ("id", "http://goo.gl/fbsS");
               ("longUrl", "http://www.google.com/"); ("status", "OK")].

Definition googl_body_removed : string :=
  json_object [("kind", "urlshortener#url"); ("id", "http://goo.gl/fbsS");
               ("status", "REMOVED")].

(** The request [_http_fetch] sends. *)
Definition http_request (self : HTTPService) (code : string) (method : http_method)
  : request :=
  mkRequest method (_path self ++ code)
    (dict_set "Host" (_hostname self)
       (dict_set "Connection" (if http_keepalive self then "Keep-Alive" else "close")
          (http_headers self))).

(** A method puts at most [n] more requests on the connection, and leaves
    the earlier ones as they were. *)
Definition sends_at_most {A} (n : nat) (m : M A) : Prop :=
  forall c, exists l,
    sent (snd (m c)) = (l ++ sent c)%list /\ (List.length l <= n)%nat.

(** No character of [s] is a line break. *)
Fixpoint no_newline (s : string) : bool :=
  match s with
  | EmptyString => true
  | String c r => negb (Ascii.eqb c newline) && no_newline r
  end.

(** The literals around the group in Owly's pattern. *)
Definition owly_open : string :=
  "<a class=" ++ dq ++ "btn ignore" ++ dq ++ " href=" ++ dq.
Definition owly_close : string := dq ++ " title=".

(** The literal before the group in Snipurl's pattern. *)
Definition snipurl_open : string :=
  "<p>You clicked on a snipped URL, which will take you to the following looong URL: </p> <div class="
  ++ dq ++ "quote" ++ dq ++ "><span class=" ++ dq ++ "quotet" ++ dq ++ "></span><br/>".

(** The literal that opens BaseVisibliService's pattern. *)
Definition iframe_open : string := "<iframe id=" ++ dq.

(** A safety-warning page of ow.ly. *)
Definition owly_warning_page : string :=
  "<html>" ++ owly_open ++ "http://example.org/?a=1&amp;b=2" ++ owly_close
  ++ dq ++ "x" ++ dq ++ ">go</a></html>".

(** The four status tables of a class share no status. *)
Definition tables_disjoint (cls : SimpleService.class) : Prop :=
  NoDup (SimpleService.http_status_redirect cls
         ++ SimpleService.http_status_no_redirect cls
         ++ SimpleService.http_status_code_blocked cls
         ++ SimpleService.http_status_blocked cls)%list.

(** ** Construction and the registry *)

Inductive addr_family : Type := AF_INET | AF_INET6 | AF_other.

(** One entry of [socket.getaddrinfo]: its family and, when the first
    component of its socket address is a string, that string. *)
Record addrinfo : Type := mkAddrinfo {
  ai_family : addr_family;
  ai_host : option string
}.

(** What a constructor ends in: the instance, an exception of [exn], or
    the [socket.gaierror] of a name that does not resolve. *)
Inductive constructed (A : Type) : Type :=
| Built (a : A)
| Fails (e : exn)
| gaierror (e : string).
Arguments Built {A} a.
Arguments Fails {A} e.
Arguments gaierror {A} e.

(** [socket.getaddrinfo(host, port)]; the port is a string of the URL or
    the number 80. *)
Class Resolver : Type := {
  getaddrinfo : string -> pyval -> list addrinfo + string
}.

(** What [HTTPService.__init__] leaves in [self], beside the members of
    the class. *)
Record HTTPInstance : Type := mkHTTPInstance {
  inst_service : HTTPService;
  _port : option string;
  _host : string;
  conn_https : bool;
  _conn : connection
}.

(** The addresses [__init__] can use: those of family [AF_INET] or
    [AF_INET6] whose host is a string. *)
Definition usable_hosts (infos : list addrinfo) : list string :=
  flat_map
    (fun ai =>
       match ai_family ai, ai_host ai with
       | AF_INET, Some h | AF_INET6, Some h => [h]
       | _, _ => []
       end)
    infos.

Definition HTTPService__init__ `{PyLib} `{Resolver} (url : string)
    (headers : list (string * string)) (keepalive : bool) : constructed HTTPInstance :=
  match urlparse url with
  | Raise e => Fails e
  | Ok parsed_url =>
      let p := if truthy (path parsed_url) then path parsed_url else "/" in
      if negb (scheme parsed_url =? "http") && negb (scheme parsed_url =? "https") then
        Fails (ValueError ("Unknown scheme " ++ scheme parsed_url))
      else
        let https := scheme parsed_url =? "https" in
        let '(host_name, port) :=
          match PyRef.split1 ":" (netloc parsed_url) with
          | (h, Some pt) => (h, Some pt)
          | (_, None) => (netloc parsed_url, None)
          end in
        let port_arg :=
          match port with
          | Some pt => if truthy pt then PyStr pt else PyInt 80
          | None => PyInt 80
          end in
        match getaddrinfo host_name port_arg with
        | inr e => gaierror e
        | inl infos =>
            match usable_hosts infos with
            | [] => Fails (ValueError ("Unknown host " ++ netloc parsed_url))
            | h :: _ =>
                match httplib_connection https h with
                | Ok conn =>
                    Built (mkHTTPInstance (mkHTTPService url headers keepalive p host_name)
                             port h https conn)
                | Raise e => Fails e
                end
            end
        end
  end.

(** The classes of the registry. *)
Inductive service_class : Type :=
| svc_bitly | svc_isgd | svc_owly | svc_tinyurl | svc_ur1ca | svc_snipurl
| svc_googl | svc_trimnew | svc_postly | svc_wpme | svc_visiblihex
| svc_visibli | svc_vbly | svc_arsehat | svc_pixorial | svc_twitter | svc_trim.

Definition _factory_map : list (string * service_class) :=
  [("bitly", svc_bitly); ("isgd", svc_isgd); ("owly", svc_owly);
   ("tinyurl", svc_tinyurl); ("ur1ca", svc_ur1ca); ("snipurl", svc_snipurl);
   ("googl", svc_googl); ("trimnew", svc_trimnew); ("postly", svc_postly);
   ("wpme", svc_wpme); ("visiblihex", svc_visiblihex); ("visibli", svc_visibli);
   ("vbly", svc_vbly); ("arsehat", svc_arsehat); ("pixorial", svc_pixorial);
   ("twitter", svc_twitter); ("trim", svc_trim)].

Inductive instance : Type :=
| http_instance (cls : service_class) (i : HTTPInstance)
| yourls_instance (cls : service_class) (i : YourlsService.instance)
| googl_instance (conn : connection).

(** The members [url], [http_headers] and [http_keepalive] of the classes
    built on [HTTPService]. *)
Definition http_class (cls : service_class) : option HTTPService :=
  match cls with
  | svc_bitly => Some Bitly.self
  | svc_isgd => Some Isgd.self
  | svc_owly => Some Owly.self
  | svc_tinyurl => Some Tinyurl.self
  | svc_ur1ca => Some Ur1ca.self
  | svc_snipurl => Some Snipurl.self
  | svc_trimnew => Some Trimnew.self
  | svc_postly => Some Postly.self
  | svc_wpme => Some Wpme.self
  | svc_visiblihex => Some VisibliHex.self
  | svc_visibli => Some Visibli.self
  | svc_pixorial => Some Pixorial.self
  | svc_twitter => Some Twitter.self
  | svc_trim => Some Trim.self
  | svc_googl | svc_vbly | svc_arsehat => None
  end.

Definition yourls_class (cls : service_class) : option YourlsService.class :=
  match cls with
  | svc_vbly => Some Vbly.cls
  | svc_arsehat => Some Arsehat.cls
  | _ => None
  end.

(** [service()]: the constructor of the class. *)
Definition construct `{PyLib} `{Resolver} (cls : service_class) : constructed instance :=
  match http_class cls, yourls_class cls with
  | Some k, _ =>
      match HTTPService__init__ (url k) (http_headers k) (http_keepalive k) with
      | Built i => Built (http_instance cls i)
      | Fails e => Fails e
      | gaierror e => gaierror e
      end
  | None, Some y =>
      match YourlsService.__init__ y with
      | Ok i => Built (yourls_instance cls i)
      | Raise e => Fails e
      end
  | None, None =>
      match httplib_connection true "www.googleapis.com" with
      | Ok conn => Built (googl_instance conn)
      | Raise e => Fails e
      end
  end.

Definition factory `{PyLib} `{Resolver} (name : string) : constructed instance :=
  match dict_get name _factory_map with
  | None => Fails (ValueError ("Unknown service " ++ name))
  | Some service => construct service
  end.

(** A resolver that finds one IPv4 address for every name. *)
Definition resolve_all : Resolver :=
  {| getaddrinfo := fun _ _ => inl [mkAddrinfo AF_other None;
                                    mkAddrinfo AF_INET (Some "192.0.2.1")] |}.


(** Every run of the method leaves the connection closed. *)
Definition leaves_closed {A} (m : M A) : Prop :=
  forall c, is_open (snd (m c)) = false.

(** The redirect that [Tinyurl._parse_errorhelp] looks for in a page. *)
Definition errorhelp_redirect (data : string) : option string :=
  re_search lazy_group false
    (lit ("<meta http-equiv=" ++ dq ++ "refresh" ++ dq ++ " content=" ++ dq ++ "0;url="))
    (lit (dq ++ ">")) data.

(** What [Tinyurl._parse_errorhelp] asks of the redirect before it trusts
    the target [u] in it. *)
Definition trusted_errorhelp `{PyLib} (code target u : string) : Prop :=
  exists parsed,
    urlparse target = Ok parsed
    /\ scheme parsed = "http" /\ netloc parsed = "tinyurl.com"
    /\ path parsed = "/errorb.php"
    /\ dict_get "url" (parse_qs (query parsed)) = Some [u]
    /\ dict_get "path" (parse_qs (query parsed)) = Some ["/" ++ code].

(** An [errorhelp] page of tinyurl.com whose meta refresh points at [target]. *)
Definition errorhelp_page (target : string) : string :=
  "<html><head><title>Redirecting...</title><meta http-equiv=" ++ dq ++ "refresh" ++ dq
  ++ " content=" ++ dq ++ "0;url=" ++ target ++ dq ++ "></head></html>".

(** * Properties *)

Lemma bind_ok {A B} (m : M A) (k : A -> M B) c a c' :
  m c = (Ok a, c') -> bind m k c = k a c'.
Proof. intros E. unfold bind. now rewrite E. Qed.

Lemma bind_raise {A B} (m : M A) (k : A -> M B) c e c' :
  m c = (Raise e, c') -> bind m k c = (Raise e, c').
Proof. intros E. unfold bind. now rewrite E. Qed.

Lemma truthy_true s : s <> "" -> truthy s = true.
Proof.
  intros N. unfold truthy. destruct (String.eqb_spec s ""); [contradiction | reflexivity].
Qed.

Lemma eqb_status_neq (a b : Z) : a <> b -> (a =? b)%Z = false.
Proof. apply Z.eqb_neq. Qed.

(** The head of a scripted exchange. *)
Lemma head_scripted (self : HTTPService) code resp body rest :
  http_keepalive self = true ->
  @_http_head (scripted (Answer resp body :: rest)) self code fresh_connection
  = (Ok resp,
     mkConnection
       [mkRequest HEAD (_path self ++ code)
          (dict_set "Host" (_hostname self)
             (dict_set "Connection" "Keep-Alive" (http_headers self)))] true).
Proof.
  intros K. unfold _http_head, _http_fetch, bind, conn_exchange, ret.
  rewrite K. reflexivity.
Qed.

(** C1. In [SimpleService.fetch], a response whose status is in the
    redirect set yields the [Location] header as the long URL when the
    header is there and not empty, and [ServiceException] (so never
    [NoRedirectException]) when the header is absent or empty. *)
Theorem simple_fetch_redirect `{Transport} (cls : SimpleService.class)
    (self : HTTPService) (code : string) (c c' : connection) (resp : response) :
  _http_head self code c = (Ok resp, c') ->
  status_in (status resp) (SimpleService.http_status_redirect cls) = true ->
  (forall location,
      getheader resp "Location" = Some location -> location <> "" ->
      SimpleService.fetch cls self code c = (Ok (PyStr location), c')
      /\ classify (fst (SimpleService.fetch cls self code c)) = Some (LongURL location))
  /\ (getheader resp "Location" = None \/ getheader resp "Location" = Some "" ->
      (exists m, SimpleService.fetch cls self code c = (Raise (ServiceException m), c'))
      /\ classify (fst (SimpleService.fetch cls self code c)) <> Some NoRedirect).
Proof.
  intros Hhead Hin. unfold SimpleService.fetch.
  rewrite (bind_ok _ _ _ _ _ Hhead), Hin. split.
  - intros location Hloc Hne. rewrite Hloc, (truthy_true _ Hne). now split.
  - intros [Hloc | Hloc]; rewrite Hloc; simpl; (split; [eexists; reflexivity | discriminate]).
Qed.

Lemma simple_fetch_redirect_witness :
  fst (@SimpleService.fetch (scripted [Answer (moved_to 301 "Moved" "http://example.org/x") ""])
         SimpleService.base Wpme.self "abc" fresh_connection)
  = Ok (PyStr "http://example.org/x")
  /\ classify (fst (@SimpleService.fetch (scripted [Answer (resp_of 302 []) ""])
                      SimpleService.base Wpme.self "abc" fresh_connection))
     <> Some NoRedirect.
Proof.
  split.
  - pose proof (@simple_fetch_redirect
                  (scripted [Answer (moved_to 301 "Moved" "http://example.org/x") ""])
                  SimpleService.base Wpme.self "abc" fresh_connection _
                  (moved_to 301 "Moved" "http://example.org/x")
                  (head_scripted Wpme.self "abc" _ "" [] eq_refl) eq_refl) as [Hyes _].
    destruct (Hyes "http://example.org/x" eq_refl) as [E _]; [discriminate |].
    now rewrite E.
  - pose proof (@simple_fetch_redirect
                  (scripted [Answer (resp_of 302 []) ""])
                  SimpleService.base Wpme.self "abc" fresh_connection _
                  (resp_of 302 [])
                  (head_scripted Wpme.self "abc" _ "" [] eq_refl) eq_refl) as [_ Hno].
    exact (proj2 (Hno (or_introl eq_refl))).
Defined.

(** C3. [YourlsService.fetch]: on status 200 the body [not found] is
    [NoRedirectException] and any other body is returned as it is; any
    other status is [ServiceException]. *)
Theorem yourls_fetch_classifies `{PyLib} `{Transport} (self_path code : string)
    (c : connection) (resp : response) (data : string) :
  server (List.length (sent c)) (yourls_request self_path code) = Answer resp data ->
  (status resp = 200%Z -> data = "not found" ->
   fst (YourlsService.fetch self_path code c) = Raise (NoRedirectException None))
  /\ (status resp = 200%Z -> data <> "not found" ->
      fst (YourlsService.fetch self_path code c) = Ok (PyStr data))
  /\ (status resp <> 200%Z ->
      exists m, fst (YourlsService.fetch self_path code c) = Raise (ServiceException m)).
Proof.
  intros Hsrv. unfold YourlsService.fetch, conn_exchange.
  unfold yourls_request in Hsrv. rewrite Hsrv.
  repeat split.
  - intros Hst Hnf. now rewrite Hst, Hnf.
  - intros Hst Hnf. rewrite Hst. simpl.
    destruct (String.eqb_spec data "not found"); [contradiction | reflexivity].
  - intros Hst. rewrite (eqb_status_neq _ _ Hst). eexists. reflexivity.
Qed.

Lemma yourls_fetch_classifies_witness :
  fst (@YourlsService.fetch py_ref (scripted [Answer (resp_of 200 []) "not found"])
         "/yourls-api.php" "abc" fresh_connection) = Raise (NoRedirectException None)
  /\ fst (@YourlsService.fetch py_ref
            (scripted [Answer (resp_of 200 []) "http://long.example/path"])
            "/yourls-api.php" "abc" fresh_connection) = Ok (PyStr "http://long.example/path")
  /\ exists m,
      fst (@YourlsService.fetch py_ref (scripted [Answer (resp_of 503 []) "not found"])
             "/yourls-api.php" "abc" fresh_connection) = Raise (ServiceException m).
Proof.
  split; [| split].
  - apply (proj1 (@yourls_fetch_classifies py_ref
                    (scripted [Answer (resp_of 200 []) "not found"])
                    "/yourls-api.php" "abc" fresh_connection _ _ eq_refl));
      reflexivity.
  - apply (proj1 (proj2 (@yourls_fetch_classifies py_ref
                    (scripted [Answer (resp_of 200 []) "http://long.example/path"])
                    "/yourls-api.php" "abc" fresh_connection _ _ eq_refl)));
      [reflexivity | discriminate].
  - apply (proj2 (proj2 (@yourls_fetch_classifies py_ref
                    (scripted [Answer (resp_of 503 []) "not found"])
                    "/yourls-api.php" "abc" fresh_connection _ _ eq_refl))).
    discriminate.
Defined.

(** C7. [Bitly.fetch] on status 301 with a [Location] that is not empty:
    the reason phrase [Moved] returns the location, [Moved Permanently] is
    [CodeBlockedException], and any other phrase is [ServiceException]. *)
Theorem bitly_301_reason `{PyLib} `{Transport} (code : string) (c c' : connection)
    (resp : response) (location : string) :
  _http_head Bitly.self code c = (Ok resp, c') ->
  status resp = 301%Z ->
  getheader resp "Location" = Some location -> location <> "" ->
  (reason resp = "Moved" -> Bitly.fetch code c = (Ok (PyStr location), c'))
  /\ (reason resp = "Moved Permanently" ->
      fst (Bitly.fetch code c) = Raise (CodeBlockedException None))
  /\ (reason resp <> "Moved" -> reason resp <> "Moved Permanently" ->
      exists m, Bitly.fetch code c = (Raise (ServiceException m), c')).
Proof.
  intros Hhead Hst Hloc Hne. unfold Bitly.fetch.
  rewrite (bind_ok _ _ _ _ _ Hhead), Hst, Hloc, (truthy_true _ Hne). simpl.
  repeat split.
  - intros R. now rewrite R.
  - intros R. now rewrite R.
  - intros R1 R2.
    destruct (String.eqb_spec (reason resp) "Moved"); [contradiction |].
    destruct (String.eqb_spec (reason resp) "Moved Permanently"); [contradiction |].
    eexists. reflexivity.
Qed.

Lemma bitly_301_reason_witness :
  fst (@Bitly.fetch py_ref (scripted [Answer (moved_to 301 "Moved" "http://example.org/x") ""])
         "abc" fresh_connection) = Ok (PyStr "http://example.org/x")
  /\ fst (@Bitly.fetch py_ref
            (scripted [Answer (moved_to 301 "Moved Permanently" "http://example.org/x") ""])
            "abc" fresh_connection) = Raise (CodeBlockedException None).
Proof.
  split.
  - rewrite (proj1 (@bitly_301_reason py_ref
                      (scripted [Answer (moved_to 301 "Moved" "http://example.org/x") ""])
                      "abc" fresh_connection _ _ "http://example.org/x"
                      (head_scripted Bitly.self "abc" _ "" [] eq_refl)
                      eq_refl eq_refl ltac:(discriminate)) eq_refl).
    reflexivity.
  - apply (proj1 (proj2 (@bitly_301_reason py_ref
                      (scripted [Answer (moved_to 301 "Moved Permanently" "http://example.org/x") ""])
                      "abc" fresh_connection _ _ "http://example.org/x"
                      (head_scripted Bitly.self "abc" _ "" [] eq_refl)
                      eq_refl eq_refl ltac:(discriminate)))).
    reflexivity.
Defined.

Lemma one_value_spec k q v : one_value k q = Some v <-> dict_get k q = Some [v].
Proof.
  unfold one_value. destruct (dict_get k q) as [[| x [| y l]] |]; split; intros E;
    try discriminate; now inversion E.
Qed.

Lemma parse_warning_trusted `{PyLib} code location u :
  trusted_warning code location u ->
  Bitly._parse_warning_url code location = Ok (PyStr u).
Proof.
  intros (parsed & Hp0 & Hs & Hn & Hp & Hu & Hh). unfold Bitly._parse_warning_url.
  rewrite Hp0, Hs, Hn, Hp. simpl.
  rewrite (proj2 (one_value_spec _ _ _) Hu), (proj2 (one_value_spec _ _ _) Hh).
  now rewrite String.eqb_refl.
Qed.

Lemma parse_warning_cases `{PyLib} code location parsed :
  urlparse location = Ok parsed ->
  (exists u, trusted_warning code location u
             /\ Bitly._parse_warning_url code location = Ok (PyStr u))
  \/ ((forall u, ~ trusted_warning code location u)
      /\ exists m, Bitly._parse_warning_url code location = Raise (ServiceException m)).
Proof.
  intros Hp0.
  assert (Hno : forall P : Prop,
             (forall u, trusted_warning code location u ->
                        scheme parsed = "http" /\ netloc parsed = "bit.ly"
                        /\ path parsed = "/a/warning"
                        /\ dict_get "url" (parse_qs (query parsed)) = Some [u]
                        /\ dict_get "hash" (parse_qs (query parsed)) = Some [code])).
  { intros _ u (parsed' & Hp' & T). rewrite Hp0 in Hp'. inversion Hp'. subst parsed'.
    exact T. }
  specialize (Hno True).
  unfold Bitly._parse_warning_url. rewrite Hp0.
  destruct (String.eqb_spec (scheme parsed) "http") as [Hs | Hs];
    [| right; split; [intros u T; apply Hno in T; tauto | eexists; reflexivity]].
  destruct (String.eqb_spec (netloc parsed) "bit.ly") as [Hn | Hn];
    [| right; split; [intros u T; apply Hno in T; tauto | eexists; reflexivity]].
  destruct (String.eqb_spec (path parsed) "/a/warning") as [Hp | Hp];
    [| right; split; [intros u T; apply Hno in T; tauto | eexists; reflexivity]].
  simpl.
  destruct (one_value "url" _) as [u |] eqn:Hu.
  - destruct (one_value "hash" _) as [h |] eqn:Hh.
    + apply one_value_spec in Hu. apply one_value_spec in Hh.
      destruct (String.eqb_spec h code) as [E | E]; simpl.
      * subst h. left. exists u. split; [| reflexivity].
        exists parsed. repeat split; assumption.
      * right. split; [| eexists; reflexivity].
        intros u' T. apply Hno in T. destruct T as (_ & _ & _ & _ & Hh').
        rewrite Hh in Hh'. inversion Hh'. contradiction.
    + right. split; [| eexists; reflexivity].
      intros u' T. apply Hno in T. destruct T as (_ & _ & _ & _ & Hh').
      apply one_value_spec in Hh'. congruence.
  - right. split; [| eexists; reflexivity].
    intros u' T. apply Hno in T. destruct T as (_ & _ & _ & Hu' & _).
    apply one_value_spec in Hu'. congruence.
Qed.

(** C8, the failing path: on status 302 with a [Location] that
    [urlparse] refuses, [Bitly.fetch] lets the [ValueError] escape, which
    is none of the outcomes, where the claim wants a service error. *)
Theorem bitly_302_urlparse_error `{PyLib} `{Transport} (code : string)
    (c c' : connection) (resp : response) (location m : string) :
  _http_head Bitly.self code c = (Ok resp, c') ->
  status resp = 302%Z ->
  getheader resp "Location" = Some location -> location <> "" ->
  urlparse location = Raise (ValueError m) ->
  Bitly.fetch code c = (Raise (ValueError m), c')
  /\ classify (fst (Bitly.fetch code c)) = None.
Proof.
  intros Hhead Hst Hloc Hne Hp.
  assert (E : Bitly.fetch code c = (Raise (ValueError m), c')).
  { unfold Bitly.fetch. rewrite (bind_ok _ _ _ _ _ Hhead), Hst. simpl.
    rewrite Hloc, (truthy_true _ Hne). unfold lift, Bitly._parse_warning_url.
    now rewrite Hp. }
  now rewrite E.
Qed.

Lemma bitly_302_urlparse_error_witness :
  fst (@Bitly.fetch py_ref (scripted [Answer (moved_to 302 "Found" bracket_location) ""])
         "abc" fresh_connection) = Raise (ValueError "Invalid IPv6 URL").
Proof.
  rewrite (proj1 (@bitly_302_urlparse_error py_ref
                    (scripted [Answer (moved_to 302 "Found" bracket_location) ""])
                    "abc" fresh_connection _ _ bracket_location "Invalid IPv6 URL"
                    (head_scripted Bitly.self "abc" _ "" [] eq_refl) eq_refl eq_refl
                    ltac:(discriminate) ltac:(vm_compute; reflexivity))).
  reflexivity.
Defined.

(** [Bitly.fetch] on status 302 with a [Location] that [urlparse]
    accepts: it returns the [url] value of the location exactly when the
    location is a bit.ly warning page that carries one [url] value and one
    [hash] value equal to the code, and raises [ServiceException] when the
    location fails one of these tests or is missing or empty. *)
Theorem bitly_302_warning `{PyLib} `{Transport} (code : string) (c c' : connection)
    (resp : response) :
  _http_head Bitly.self code c = (Ok resp, c') ->
  status resp = 302%Z ->
  (forall location u,
      getheader resp "Location" = Some location -> location <> "" ->
      trusted_warning code location u ->
      Bitly.fetch code c = (Ok (PyStr u), c'))
  /\ (forall location parsed,
      getheader resp "Location" = Some location ->
      urlparse location = Ok parsed ->
      (forall u, ~ trusted_warning code location u) ->
      exists m, Bitly.fetch code c = (Raise (ServiceException m), c'))
  /\ (getheader resp "Location" = None \/ getheader resp "Location" = Some "" ->
      exists m, Bitly.fetch code c = (Raise (ServiceException m), c'))
  /\ (forall v, Bitly.fetch code c = (Ok v, c') ->
      exists location u,
        getheader resp "Location" = Some location
        /\ trusted_warning code location u /\ v = PyStr u).
Proof.
  intros Hhead Hst. unfold Bitly.fetch.
  rewrite (bind_ok _ _ _ _ _ Hhead), Hst. simpl.
  split; [| split; [| split]].
  - intros location u Hloc Hne Ht.
    rewrite Hloc, (truthy_true _ Hne). unfold lift.
    now rewrite (parse_warning_trusted _ _ _ Ht).
  - intros location parsed Hloc Hp Hno. rewrite Hloc.
    destruct (truthy location); [| eexists; reflexivity].
    destruct (parse_warning_cases code location parsed Hp) as [(u & Ht & _) | (_ & m & E)].
    + destruct (Hno u Ht).
    + unfold lift. rewrite E. now exists m.
  - intros [Hloc | Hloc]; rewrite Hloc; eexists; reflexivity.
  - intros v. destruct (getheader resp "Location") as [location |]; [| discriminate].
    destruct (truthy location); [| discriminate].
    destruct (urlparse location) as [parsed | e] eqn:Hp.
    + destruct (parse_warning_cases code location parsed Hp) as [(u & Ht & E) | (_ & m & E)];
        unfold lift; rewrite E; intros Ev; inversion Ev.
      exists location, u. split; [reflexivity | split; [exact Ht | congruence]].
    + unfold lift, Bitly._parse_warning_url. rewrite Hp. discriminate.
Qed.

Lemma bitly_302_warning_witness :
  fst (@Bitly.fetch py_ref (scripted [Answer (moved_to 302 "Found" warning_location) ""])
         "abc" fresh_connection) = Ok (PyStr "http://example.org/x")
  /\ exists m,
      fst (@Bitly.fetch py_ref (scripted [Answer (resp_of 302 []) ""])
             "abc" fresh_connection) = Raise (ServiceException m).
Proof.
  split.
  - rewrite (proj1 (@bitly_302_warning py_ref
                      (scripted [Answer (moved_to 302 "Found" warning_location) ""])
                      "abc" fresh_connection _ _
                      (head_scripted Bitly.self "abc" _ "" [] eq_refl) eq_refl)
               warning_location "http://example.org/x" eq_refl ltac:(discriminate)
               ltac:(eexists; split; [vm_compute; reflexivity | repeat split; reflexivity])).
    reflexivity.
  - destruct (proj1 (proj2 (proj2 (@bitly_302_warning py_ref
                      (scripted [Answer (resp_of 302 []) ""])
                      "abc" fresh_connection _ _
                      (head_scripted Bitly.self "abc" _ "" [] eq_refl) eq_refl)))
                (or_introl eq_refl)) as [m E].
    exists m. now rewrite E.
Defined.

Lemma get_after_head (self : HTTPService) code first resp body rest :
  http_keepalive self = true ->
  exists c2,
    @_http_get (scripted (first :: Answer resp body :: rest)) self code (after_head self code)
    = (Ok (resp, body), c2).
Proof.
  intros K. unfold _http_get, _http_fetch, conn_exchange. rewrite K.
  eexists. reflexivity.
Qed.

Lemma not_in_status (s : Z) (l : list Z) : ~ In s l -> status_in s l = false.
Proof.
  intros N. unfold status_in. destruct (existsb (Z.eqb s) l) eqn:E; [| reflexivity].
  apply existsb_exists in E. destruct E as (x & Hx & Hs).
  apply Z.eqb_eq in Hs. subst x. contradiction.
Qed.

(** C2, the failing path: when is.gd answers 200 to the HEAD and to the
    GET with a page that is not empty and carries none of the three
    markers, [Isgd.fetch] returns [None], which is none of the outcomes. *)
Theorem isgd_unknown_page_returns_None `{PyLib} `{Transport} (code : string)
    (c c1 c2 : connection) (resp1 resp2 : response) (data : string) :
  _http_head Isgd.self code c = (Ok resp1, c1) -> status resp1 = 200%Z ->
  _http_get Isgd.self code c1 = (Ok (resp2, data), c2) -> status resp2 = 200%Z ->
  data <> "" ->
  contains Isgd.rate_limit_banner data = false ->
  contains Isgd.disabled_marker data = false ->
  contains Isgd.preview_marker data = false ->
  Isgd.fetch code c = (Ok PyNone, c2)
  /\ classify (fst (Isgd.fetch code c)) = None.
Proof.
  intros Hhead Hst1 Hget Hst2 Hne Hb Hd Hp.
  assert (E : Isgd.fetch code c = (Ok PyNone, c2)).
  { unfold Isgd.fetch, SimpleService.fetch.
    rewrite (bind_ok _ _ _ _ _ Hhead). simpl.
    unfold Isgd.unexpected_http_status. rewrite Hst1. simpl.
    rewrite (bind_ok _ _ _ _ _ Hget). simpl.
    now rewrite Hst2, (truthy_true _ Hne), Hb, Hd, Hp. }
  now rewrite E.
Qed.

Lemma isgd_unknown_page_returns_None_witness :
  fst (@Isgd.fetch py_ref
         (scripted [Answer (resp_of 200 []) ""; Answer (resp_of 200 []) isgd_unknown_page])
         "abc" fresh_connection) = Ok PyNone.
Proof.
  destruct (get_after_head Isgd.self "abc" (Answer (resp_of 200 []) "")
              (resp_of 200 []) isgd_unknown_page [] eq_refl) as [c2 Hget].
  rewrite (proj1 (@isgd_unknown_page_returns_None py_ref
                    (scripted [Answer (resp_of 200 []) ""; Answer (resp_of 200 []) isgd_unknown_page])
                    "abc" fresh_connection _ c2 _ _ _
                    (head_scripted Isgd.self "abc" _ "" _ eq_refl) eq_refl
                    Hget eq_refl ltac:(discriminate)
                    ltac:(vm_compute; reflexivity) ltac:(vm_compute; reflexivity)
                    ltac:(vm_compute; reflexivity))).
  reflexivity.
Defined.

(** The five re-fetching paths, one by one. *)

Lemma isgd_second_exchange `{PyLib} `{Transport} :
  second_exchange_checked Isgd.fetch Isgd.self 200.
Proof.
  intros code c resp1 c1 resp2 data c2 Hhead Hst Hget Hne.
  rewrite Hst in Hne.
  unfold Isgd.fetch, SimpleService.fetch.
  rewrite (bind_ok _ _ _ _ _ Hhead). simpl.
  unfold Isgd.unexpected_http_status. rewrite Hst. simpl.
  rewrite (bind_ok _ _ _ _ _ Hget). simpl.
  rewrite (eqb_status_neq _ _ Hne). eexists. reflexivity.
Qed.

Lemma owly_second_exchange `{PyLib} `{Transport} :
  second_exchange_checked Owly.fetch Owly.self 200.
Proof.
  intros code c resp1 c1 resp2 data c2 Hhead Hst Hget Hne.
  rewrite Hst in Hne.
  unfold Owly.fetch, SimpleService.fetch.
  rewrite (bind_ok _ _ _ _ _ Hhead). simpl.
  unfold Owly.unexpected_http_status. rewrite Hst. simpl.
  rewrite (bind_ok _ _ _ _ _ Hget). simpl.
  rewrite (eqb_status_neq _ _ Hne). eexists. reflexivity.
Qed.

Lemma tinyurl_second_exchange `{PyLib} `{Transport} :
  second_exchange_checked Tinyurl.fetch Tinyurl.self 200.
Proof.
  intros code c resp1 c1 resp2 data c2 Hhead Hst Hget Hne.
  rewrite Hst in Hne.
  unfold Tinyurl.fetch.
  rewrite (bind_ok _ _ _ _ _ Hhead), Hst. simpl.
  unfold Tinyurl._fetch_200.
  rewrite (bind_ok _ _ _ _ _ Hget). simpl.
  rewrite (eqb_status_neq _ _ Hne). eexists. reflexivity.
Qed.

Lemma snipurl_second_exchange `{PyLib} `{Transport} :
  second_exchange_checked Snipurl.fetch Snipurl.self 500.
Proof.
  intros code c resp1 c1 resp2 data c2 Hhead Hst Hget Hne.
  rewrite Hst in Hne.
  unfold Snipurl.fetch.
  eexists. apply bind_raise.
  unfold SimpleService.fetch.
  rewrite (bind_ok _ _ _ _ _ Hhead). simpl.
  unfold Snipurl.unexpected_http_status. rewrite Hst. simpl.
  rewrite (bind_ok _ _ _ _ _ Hget). simpl.
  rewrite (eqb_status_neq _ _ Hne). reflexivity.
Qed.

Lemma visibli_second_exchange `{PyLib} `{Transport} (self : HTTPService) :
  second_exchange_checked (SimpleService.fetch BaseVisibliService.cls self) self 200.
Proof.
  intros code c resp1 c1 resp2 data c2 Hhead Hst Hget Hne.
  rewrite Hst in Hne.
  unfold SimpleService.fetch.
  rewrite (bind_ok _ _ _ _ _ Hhead). simpl.
  unfold BaseVisibliService.unexpected_http_status. rewrite Hst. simpl.
  rewrite (bind_ok _ _ _ _ _ Hget). simpl.
  rewrite (eqb_status_neq _ _ Hne). eexists. reflexivity.
Qed.

Lemma tinyurl_preview_exchange `{PyLib} `{Transport} : preview_exchange_checked.
Proof.
  intros code c resp1 c1 location tiny resp2 data c2 Hhead Hst Hloc Hne Htiny Haff Hget.
  assert (Ht : truthy tiny = true).
  { apply truthy_true. intros Z. subst tiny. discriminate. }
  unfold Tinyurl.fetch. rewrite (bind_ok _ _ _ _ _ Hhead), Hst.
  change (301 =? 200)%Z with false. change (301 =? 301)%Z with true. cbv iota.
  rewrite Hloc, (truthy_true _ Hne), Htiny, Ht, Haff.
  change (true && ("aff" =? "aff")) with true. cbv iota.
  unfold Tinyurl._preview. rewrite (bind_ok _ _ _ _ _ Hget). cbv zeta. cbn [fst snd].
  split.
  - intros N. rewrite (eqb_status_neq _ _ N). eexists. reflexivity.
  - intros E g url Hg Ng Hu. rewrite E. change (negb (200 =? 200)%Z) with false. cbv iota.
    unfold preview_link in Hg. rewrite Hg.
    destruct (String.eqb_spec g "") as [Z | _]; [contradiction |].
    unfold bind, lift, ret. now rewrite Hu.
Qed.

(** C4, as the code has it.  In the hooks of Isgd, Owly, Snipurl and
    BaseVisibliService (used by VisibliHex and Visibli) and in
    [Tinyurl._fetch_200], a GET that answers the HEAD's status (200, or 500
    for Snipurl) with another status ends in [ServiceException], whatever
    the second body holds.  The affiliate preview of Tinyurl, which follows
    a HEAD that answered 301, holds its GET against 200 instead: any other
    status ends in [ServiceException], and with 200 the link read in the
    second body is returned. *)
Theorem second_exchange_status_mismatch `{PyLib} `{Transport} :
  second_exchange_checked Isgd.fetch Isgd.self 200
  /\ second_exchange_checked Owly.fetch Owly.self 200
  /\ second_exchange_checked Tinyurl.fetch Tinyurl.self 200
  /\ second_exchange_checked Snipurl.fetch Snipurl.self 500
  /\ second_exchange_checked VisibliHex.fetch VisibliHex.self 200
  /\ second_exchange_checked Visibli.fetch Visibli.self 200
  /\ preview_exchange_checked.
Proof.
  split; [apply isgd_second_exchange |].
  split; [apply owly_second_exchange |].
  split; [apply tinyurl_second_exchange |].
  split; [apply snipurl_second_exchange |].
  split; [apply (visibli_second_exchange VisibliHex.self) |].
  split; [apply (visibli_second_exchange Visibli.self) |].
  apply tinyurl_preview_exchange.
Qed.

(** C4, the counterexample: tinyurl.com answers the HEAD of an affiliate
    link with 301 and the GET of its preview page with 200; the statuses
    differ, and [Tinyurl.fetch] returns the URL it reads in the second
    body. *)
Lemma tinyurl_preview_parses_second_body :
  status tinyurl_affiliate = 301%Z
  /\ status (resp_of 200 []) <> status tinyurl_affiliate
  /\ fst (@Tinyurl.fetch py_ref
            (scripted [Answer tinyurl_affiliate "";
                       Answer (resp_of 200 []) tinyurl_preview_page])
            "abc" fresh_connection)
     = Ok (PyStr "http://example.org/").
Proof.
  split; [reflexivity |]. split; [discriminate |]. vm_compute. reflexivity.
Qed.

Lemma second_exchange_status_mismatch_witness :
  exists m,
    fst (@Owly.fetch py_ref
           (scripted [Answer (resp_of 200 []) ""; Answer (resp_of 404 []) "<html>gone</html>"])
           "abc" fresh_connection) = Raise (ServiceException m).
Proof.
  destruct (get_after_head Owly.self "abc" (Answer (resp_of 200 []) "")
              (resp_of 404 []) "<html>gone</html>" [] eq_refl) as [c2 Hget].
  destruct (proj1 (proj2 (@second_exchange_status_mismatch py_ref
              (scripted [Answer (resp_of 200 []) ""; Answer (resp_of 404 []) "<html>gone</html>"])))
              "abc" fresh_connection (resp_of 200 []) (after_head Owly.self "abc")
              (resp_of 404 []) "<html>gone</html>" c2
              (head_scripted Owly.self "abc" _ "" _ eq_refl) eq_refl Hget
              ltac:(discriminate)) as [m E].
  exists m. now rewrite E.
Defined.

(** C5, as the code has it.  The charset follows the configured base: 36
    gives the lower-case alphanumerics, 62 the mixed-case ones, and any
    other base makes reading [charset] raise [RuntimeError].  Construction
    never looks at the base: two classes that differ only in it construct
    alike. *)
Theorem yourls_charset_by_base `{PyLib} (cls : YourlsService.class) :
  (YourlsService.yourls_url_convert cls = 36%Z ->
   YourlsService.charset cls = Ok "0123456789abcdefghijklmnopqrstuvwxyz")
  /\ (YourlsService.yourls_url_convert cls = 62%Z ->
      YourlsService.charset cls
      = Ok "0123456789abcdefghijklmnopqrstuvwxyzABCDEFGHIJKLMNOPQRSTUVWXYZ")
  /\ (YourlsService.yourls_url_convert cls <> 36%Z ->
      YourlsService.yourls_url_convert cls <> 62%Z ->
      YourlsService.charset cls
      = Raise (RuntimeError "Bad value for yourls_url_convert parameter"))
  /\ (forall base,
      YourlsService.__init__ (YourlsService.mkClass (YourlsService.yourls_api_url cls) base)
      = YourlsService.__init__ cls).
Proof.
  unfold YourlsService.charset. repeat split.
  - intros E. now rewrite E.
  - intros E. now rewrite E.
  - intros N1 N2. now rewrite (eqb_status_neq _ _ N1), (eqb_status_neq _ _ N2).
Qed.

Lemma yourls_charset_by_base_witness :
  YourlsService.charset Vbly.cls = Ok "0123456789abcdefghijklmnopqrstuvwxyz"
  /\ YourlsService.charset yourls_base10
     = Raise (RuntimeError "Bad value for yourls_url_convert parameter").
Proof.
  split.
  - apply (proj1 (@yourls_charset_by_base py_ref Vbly.cls)). reflexivity.
  - apply (proj1 (proj2 (proj2 (@yourls_charset_by_base py_ref yourls_base10))));
      discriminate.
Defined.

(** C5, the counterexample: a Yourls service configured with base 10 is
    constructed without error; only reading its charset fails. *)
Lemma yourls_bad_base_constructs :
  YourlsService.yourls_url_convert yourls_base10 <> 36%Z
  /\ YourlsService.yourls_url_convert yourls_base10 <> 62%Z
  /\ @YourlsService.__init__ py_ref yourls_base10
     = Ok (YourlsService.mkInstance "/yourls-api.php" fresh_connection)
  /\ ~ (exists e, @YourlsService.__init__ py_ref yourls_base10 = Raise e).
Proof.
  split; [discriminate |]. split; [discriminate |]. split; [reflexivity |].
  intros [e E]. vm_compute in E. discriminate.
Qed.

(** C6, as the code has it.  A redirect to [http://tr.im/404] on a status
    of the redirect set is [NoRedirectException] in Trimnew for every code
    but [500] and in Trim for every code but [404].  Trim returns that
    page as the long URL of the code [404], and Trimnew answers the code
    [500] with [CodeBlockedException] before any exchange. *)
Theorem trim_not_found_page `{Transport} (code : string) (c c' : connection)
    (resp : response) :
  getheader resp "Location" = Some "http://tr.im/404" ->
  (code <> "500" ->
   _http_head Trimnew.self code c = (Ok resp, c') ->
   status_in (status resp) (SimpleService.http_status_redirect Trimnew.cls) = true ->
   Trimnew.fetch code c = (Raise (NoRedirectException None), c'))
  /\ (code <> "404" ->
      _http_head Trim.self code c = (Ok resp, c') ->
      status_in (status resp) (SimpleService.http_status_redirect SimpleService.base) = true ->
      Trim.fetch code c
      = (Raise (NoRedirectException (Some "Redirected to 404 page")), c'))
  /\ (code = "404" ->
      _http_head Trim.self code c = (Ok resp, c') ->
      status_in (status resp) (SimpleService.http_status_redirect SimpleService.base) = true ->
      Trim.fetch code c = (Ok (PyStr "http://tr.im/404"), c'))
  /\ Trimnew.fetch "500" c = (Raise (CodeBlockedException None), c).
Proof.
  intros Hloc. repeat split.
  - intros Hcode Hhead Hin. unfold Trimnew.fetch.
    destruct (String.eqb_spec code "500"); [contradiction |].
    unfold SimpleService.fetch, bind at 1.
    rewrite (bind_ok _ _ _ _ _ Hhead), Hin, Hloc. reflexivity.
  - intros Hcode Hhead Hin. unfold Trim.fetch.
    rewrite (bind_ok _ _ _ _ _ Hhead). cbv zeta. rewrite Hin, Hloc.
    destruct (String.eqb_spec code "404"); [contradiction | reflexivity].
  - intros Hcode Hhead Hin. unfold Trim.fetch.
    rewrite (bind_ok _ _ _ _ _ Hhead). cbv zeta. rewrite Hin, Hloc.
    subst code. reflexivity.
Qed.

Lemma trim_not_found_page_witness :
  fst (@Trimnew.fetch (scripted [Answer (moved_to 301 "Moved" "http://tr.im/404") ""])
         "abc" fresh_connection) = Raise (NoRedirectException None)
  /\ fst (@Trim.fetch (scripted [Answer (moved_to 302 "Found" "http://tr.im/404") ""])
            "abc" fresh_connection)
     = Raise (NoRedirectException (Some "Redirected to 404 page")).
Proof.
  split.
  - rewrite (proj1 (@trim_not_found_page
                      (scripted [Answer (moved_to 301 "Moved" "http://tr.im/404") ""])
                      "abc" fresh_connection _ (moved_to 301 "Moved" "http://tr.im/404")
                      eq_refl)
               ltac:(discriminate)
               (head_scripted Trimnew.self "abc" _ "" [] eq_refl) eq_refl).
    reflexivity.
  - rewrite (proj1 (proj2 (@trim_not_found_page
                      (scripted [Answer (moved_to 302 "Found" "http://tr.im/404") ""])
                      "abc" fresh_connection _ (moved_to 302 "Found" "http://tr.im/404")
                      eq_refl))
               ltac:(discriminate)
               (head_scripted Trim.self "abc" _ "" [] eq_refl) eq_refl).
    reflexivity.
Defined.

(** C6, the counterexample: for the code [404], Trim takes the redirect
    to [http://tr.im/404] on status 301 for a long URL. *)
Lemma trim_code_404_is_long_url :
  status_in 301 (SimpleService.http_status_redirect SimpleService.base) = true
  /\ fst (@Trim.fetch (scripted [Answer (moved_to 301 "Moved Permanently" "http://tr.im/404") ""])
            "404" fresh_connection) = Ok (PyStr "http://tr.im/404")
  /\ classify (fst (@Trim.fetch
                      (scripted [Answer (moved_to 301 "Moved Permanently" "http://tr.im/404") ""])
                      "404" fresh_connection)) <> Some NoRedirect.
Proof.
  split; [reflexivity |]. split; [reflexivity |]. vm_compute. discriminate.
Qed.

Lemma py_contains_scalar k v :
  json_scalar v = true -> exists m, py_contains k v = Raise (TypeError m).
Proof.
  destruct v; simpl; intros E; try discriminate; eexists; reflexivity.
Qed.

(** C9, the failing path: a 200 body that is valid JSON but a bare
    number, boolean or null makes [Googl.fetch] end in an uncaught
    [TypeError], which is none of the outcomes. *)
Theorem googl_scalar_body_TypeError `{PyLib} `{Transport} (code : string)
    (c : connection) (resp : response) (data : string) (v : pyval) :
  server (List.length (sent c)) (googl_request code) = Answer resp data ->
  status resp = 200%Z ->
  json_loads data = Some v -> json_scalar v = true ->
  (exists m, fst (Googl.fetch code c) = Raise (TypeError m))
  /\ classify (fst (Googl.fetch code c)) = None.
Proof.
  intros Hsrv Hst Hj Hv. unfold googl_request in Hsrv.
  unfold Googl.fetch, conn_exchange. rewrite Hsrv, Hst. simpl.
  unfold Googl._parse_json. rewrite Hj.
  destruct (py_contains_scalar "kind" v Hv) as [m E]. rewrite E. simpl.
  split; [now exists m | reflexivity].
Qed.

Lemma googl_scalar_body_TypeError_witness :
  classify (fst (@Googl.fetch py_ref (scripted [Answer (resp_of 200 []) "5"])
                   "abc" fresh_connection)) = None.
Proof.
  apply (proj2 (@googl_scalar_body_TypeError py_ref
                  (scripted [Answer (resp_of 200 []) "5"])
                  "abc" fresh_connection (resp_of 200 []) "5" (PyInt 5)
                  eq_refl eq_refl ltac:(vm_compute; reflexivity) eq_refl)).
Defined.

(** C10. [BaseVisibliService.unexpected_http_status] raises [NameError]
    on every status other than 302 and 200, and [NameError] is none of the
    outcomes; so does [fetch] of VisibliHex and Visibli whenever such a
    status is outside the status tables of the class. *)
Theorem visibli_unexpected_status_NameError `{PyLib} `{Transport}
    (self : HTTPService) (code : string) (resp : response) (c : connection) :
  status resp <> 302%Z -> status resp <> 200%Z ->
  BaseVisibliService.unexpected_http_status self code resp c
  = (Raise (NameError "BaseVisbliService"), c)
  /\ classify (Raise (NameError "BaseVisbliService")) = None
  /\ (forall c0,
      _http_head self code c0 = (Ok resp, c) ->
      ~ In (status resp) [301; 410; 403; 420; 429]%Z ->
      SimpleService.fetch BaseVisibliService.cls self code c0
      = (Raise (NameError "BaseVisbliService"), c)).
Proof.
  intros N302 N200.
  assert (E : BaseVisibliService.unexpected_http_status self code resp c
              = (Raise (NameError "BaseVisbliService"), c)).
  { unfold BaseVisibliService.unexpected_http_status.
    now rewrite (eqb_status_neq _ _ N302), (eqb_status_neq _ _ N200). }
  split; [exact E |]. split; [reflexivity |].
  intros c0 Hhead Hout. unfold SimpleService.fetch.
  rewrite (bind_ok _ _ _ _ _ Hhead). simpl BaseVisibliService.cls.
  cbv beta iota delta [SimpleService.http_status_redirect
    SimpleService.http_status_no_redirect SimpleService.http_status_code_blocked
    SimpleService.http_status_blocked SimpleService.unexpected_http_status_of
    BaseVisibliService.cls].
  rewrite !not_in_status; [exact E | | | |]; intros I; apply Hout; simpl in *; tauto.
Qed.

Lemma visibli_unexpected_status_NameError_witness :
  fst (@VisibliHex.fetch py_ref (scripted [Answer (resp_of 500 []) ""])
         "fbc5fa" fresh_connection) = Raise (NameError "BaseVisbliService").
Proof.
  unfold VisibliHex.fetch.
  rewrite (proj2 (proj2 (@visibli_unexpected_status_NameError py_ref
                    (scripted [Answer (resp_of 500 []) ""])
                    VisibliHex.self "fbc5fa" (resp_of 500 [])
                    (after_head VisibliHex.self "fbc5fa")
                    ltac:(discriminate) ltac:(discriminate)))
             fresh_connection
             (head_scripted VisibliHex.self "fbc5fa" _ "" [] eq_refl)
             ltac:(simpl; intuition discriminate)).
  reflexivity.
Defined.

(** ** Further properties of the services *)

(** [Googl._parse_json] on a body that decodes to a JSON object: a missing
    or different [kind] and a missing [status] are [ServiceException], a
    missing [longUrl] is [CodeBlockedException] with the status in its
    message, and otherwise the [longUrl] value is returned.  A body that
    does not decode is [ServiceException]. *)
Theorem googl_object_body `{PyLib} (data : string) :
  (json_loads data = None ->
   Googl._parse_json data = Raise (ServiceException "Could not decode response"))
  /\ (forall d, json_loads data = Some (PyDict d) ->
      (dict_get "kind" d <> Some (PyStr "urlshortener#url") ->
       Googl._parse_json data = Raise (ServiceException "No/bad type given"))
      /\ (dict_get "kind" d = Some (PyStr "urlshortener#url") ->
          (dict_get "status" d = None ->
           Googl._parse_json data = Raise (ServiceException "No status given"))
          /\ (forall st, dict_get "status" d = Some st ->
              (dict_get "longUrl" d = None ->
               Googl._parse_json data
               = Raise (CodeBlockedException (Some ("Status: " ++ fmt_s st))))
              /\ (forall u, dict_get "longUrl" d = Some u ->
                  Googl._parse_json data = Ok u)))).
Proof.
  unfold Googl._parse_json. split.
  - intros E. now rewrite E.
  - intros d E. rewrite E. simpl. split.
    + intros Hk. destruct (dict_get "kind" d) as [k |]; [| reflexivity]. simpl.
      destruct k; try reflexivity. simpl.
      destruct (String.eqb_spec s "urlshortener#url"); [subst; contradiction | reflexivity].
    + intros Hk. rewrite Hk. simpl. split.
      * intros Hs. now rewrite Hs.
      * intros st Hs. rewrite Hs. simpl. split.
        -- intros Hu. now rewrite Hu.
        -- intros u Hu. now rewrite Hu.
Qed.

Lemma googl_object_body_witness :
  @Googl._parse_json py_ref googl_body_ok = Ok (PyStr "http://www.google.com/")
  /\ @Googl._parse_json py_ref googl_body_removed
     = Raise (CodeBlockedException (Some "Status: REMOVED"))
  /\ @Googl._parse_json py_ref "{kind: 1" = Raise (ServiceException "Could not decode response").
Proof.
  split; [| split].
  - destruct (proj2 (@googl_object_body py_ref googl_body_ok) _
                ltac:(vm_compute; reflexivity)) as [_ Hk].
    destruct (Hk eq_refl) as [_ Hs].
    destruct (Hs (PyStr "OK") eq_refl) as [_ Hu].
    exact (Hu (PyStr "http://www.google.com/") eq_refl).
  - destruct (proj2 (@googl_object_body py_ref googl_body_removed) _
                ltac:(vm_compute; reflexivity)) as [_ Hk].
    destruct (Hk eq_refl) as [_ Hs].
    destruct (Hs (PyStr "REMOVED") eq_refl) as [Hu _].
    exact (Hu eq_refl).
  - apply (proj1 (@googl_object_body py_ref "{kind: 1")). vm_compute. reflexivity.
Defined.

(** [SimpleService.fetch] consults the four status tables in the order
    redirect, no-redirect, code-blocked, blocked, and hands every status
    that is in none of them to the hook of the class. *)
Theorem simple_fetch_dispatch `{Transport} (cls : SimpleService.class)
    (self : HTTPService) (code : string) (c c' : connection) (resp : response) :
  _http_head self code c = (Ok resp, c') ->
  status_in (status resp) (SimpleService.http_status_redirect cls) = false ->
  (status_in (status resp) (SimpleService.http_status_no_redirect cls) = true ->
   SimpleService.fetch cls self code c = (Raise (NoRedirectException None), c'))
  /\ (status_in (status resp) (SimpleService.http_status_no_redirect cls) = false ->
      (status_in (status resp) (SimpleService.http_status_code_blocked cls) = true ->
       SimpleService.fetch cls self code c = (Raise (CodeBlockedException None), c'))
      /\ (status_in (status resp) (SimpleService.http_status_code_blocked cls) = false ->
          (status_in (status resp) (SimpleService.http_status_blocked cls) = true ->
           SimpleService.fetch cls self code c = (Raise (BlockedException None), c'))
          /\ (status_in (status resp) (SimpleService.http_status_blocked cls) = false ->
              SimpleService.fetch cls self code c
              = SimpleService.unexpected_http_status_of cls self code resp c'))).
Proof.
  intros Hhead Hr. unfold SimpleService.fetch.
  rewrite (bind_ok _ _ _ _ _ Hhead), Hr. split.
  - intros E. now rewrite E.
  - intros E1. rewrite E1. split.
    + intros E. now rewrite E.
    + intros E2. rewrite E2. split.
      * intros E. now rewrite E.
      * intros E3. now rewrite E3.
Qed.

Lemma head_scripted_close (self : HTTPService) code resp body rest :
  http_keepalive self = false ->
  @_http_head (scripted (Answer resp body :: rest)) self code fresh_connection
  = (Ok resp, mkConnection [http_request self code HEAD] false).
Proof.
  intros K. unfold _http_head, _http_fetch, bind, conn_exchange, ret, http_request.
  rewrite K. reflexivity.
Qed.

(** Snipurl lists 410 as no-redirect and inherits it as code-blocked:
    the first table wins. *)
Lemma simple_fetch_dispatch_witness :
  @SimpleService.fetch (scripted [Answer (resp_of 410 []) ""])
     (@Snipurl.cls py_ref (scripted [Answer (resp_of 410 []) ""]))
     Snipurl.self "abc" fresh_connection
  = (Raise (NoRedirectException None),
     mkConnection [http_request Snipurl.self "abc" HEAD] false).
Proof.
  apply (proj1 (@simple_fetch_dispatch (scripted [Answer (resp_of 410 []) ""])
                  (@Snipurl.cls py_ref (scripted [Answer (resp_of 410 []) ""]))
                  Snipurl.self "abc" fresh_connection _ (resp_of 410 [])
                  (head_scripted_close Snipurl.self "abc" _ "" [] eq_refl) eq_refl)).
  reflexivity.
Defined.

(** *** The exchange *)

Lemma dict_get_set_same {V} (k : string) (v : V) d :
  dict_get k (dict_set k v d) = Some v.
Proof.
  induction d as [| [k' v'] d IH]; simpl.
  - now rewrite String.eqb_refl.
  - destruct (String.eqb_spec k' k); simpl.
    + now rewrite String.eqb_refl.
    + destruct (String.eqb_spec k' k); [contradiction | exact IH].
Qed.

Lemma dict_get_set_other {V} (k k0 : string) (v : V) d :
  k0 <> k -> dict_get k0 (dict_set k v d) = dict_get k0 d.
Proof.
  intros N. induction d as [| [k' v'] d IH]; simpl.
  - destruct (String.eqb_spec k k0); [congruence | reflexivity].
  - destruct (String.eqb_spec k' k) as [E | E]; simpl.
    + subst k'. destruct (String.eqb_spec k k0); [congruence | reflexivity].
    + destruct (String.eqb_spec k' k0); [reflexivity | exact IH].
Qed.

Lemma http_fetch_sent `{Transport} (self : HTTPService) (code : string)
    (method : http_method) (c : connection) :
  sent (snd (_http_fetch self code method c)) = http_request self code method :: sent c.
Proof.
  unfold _http_fetch, conn_exchange, http_request.
  destruct (http_keepalive self); destruct (server _ _); reflexivity.
Qed.

(** Every request of [_http_fetch] goes to [_path + code] and carries the
    host name of the service in [Host] and the keep-alive policy in
    [Connection], whatever [http_headers] says about these two; the other
    headers of the service are sent unchanged. *)
Theorem http_fetch_request `{Transport} (self : HTTPService) (code : string)
    (method : http_method) (c : connection) :
  sent (snd (_http_fetch self code method c)) = http_request self code method :: sent c
  /\ req_path (http_request self code method) = _path self ++ code
  /\ dict_get "Host" (req_headers (http_request self code method)) = Some (_hostname self)
  /\ dict_get "Connection" (req_headers (http_request self code method))
     = Some (if http_keepalive self then "Keep-Alive" else "close")
  /\ (forall name, name <> "Host" -> name <> "Connection" ->
      dict_get name (req_headers (http_request self code method))
      = dict_get name (http_headers self)).
Proof.
  split; [| split; [reflexivity | split; [| split]]].
  - apply http_fetch_sent.
  - unfold http_request. simpl. apply dict_get_set_same.
  - unfold http_request. simpl.
    rewrite dict_get_set_other by discriminate. apply dict_get_set_same.
  - intros name N1 N2. unfold http_request. simpl.
    now rewrite !dict_get_set_other by assumption.
Qed.

(** After [_http_fetch] the connection is open only if the server
    answered and the service keeps its connections alive; a failure of the
    transport is a [ServiceException] that names it. *)
Theorem http_fetch_connection `{Transport} (self : HTTPService) (code : string)
    (method : http_method) (c : connection) :
  match server (List.length (sent c)) (http_request self code method) with
  | Answer resp body =>
      fst (_http_fetch self code method c) = Ok (resp, body)
      /\ is_open (snd (_http_fetch self code method c)) = http_keepalive self
  | HTTPException e =>
      fst (_http_fetch self code method c) = Raise (ServiceException ("HTTP exception: " ++ e))
      /\ is_open (snd (_http_fetch self code method c)) = false
  | socket_error e =>
      fst (_http_fetch self code method c) = Raise (ServiceException ("Socket error: " ++ e))
      /\ is_open (snd (_http_fetch self code method c)) = false
  end.
Proof.
  unfold _http_fetch, conn_exchange, http_request.
  destruct (http_keepalive self) eqn:K;
    destruct (server _ _); simpl; rewrite ?K; split; reflexivity.
Qed.

(** When the transport fails on the HEAD request, [SimpleService.fetch]
    raises [ServiceException] for every class: no status table and no hook
    is consulted, and the connection is left closed. *)
Theorem simple_fetch_transport_failure `{Transport} (cls : SimpleService.class)
    (self : HTTPService) (code : string) (c : connection) (e : string) :
  (server (List.length (sent c)) (http_request self code HEAD) = HTTPException e ->
   SimpleService.fetch cls self code c
   = (Raise (ServiceException ("HTTP exception: " ++ e)),
      mkConnection (http_request self code HEAD :: sent c) false))
  /\ (server (List.length (sent c)) (http_request self code HEAD) = socket_error e ->
      SimpleService.fetch cls self code c
      = (Raise (ServiceException ("Socket error: " ++ e)),
         mkConnection (http_request self code HEAD :: sent c) false)).
Proof.
  split; intros E; unfold SimpleService.fetch; apply bind_raise;
    unfold _http_head; apply bind_raise;
    unfold _http_fetch, conn_exchange, http_request in *;
    destruct (http_keepalive self); rewrite E; reflexivity.
Qed.

Lemma simple_fetch_transport_failure_witness :
  fst (@Isgd.fetch py_ref (scripted []) "abc" fresh_connection)
  = Raise (ServiceException "Socket error: timed out").
Proof.
  unfold Isgd.fetch.
  rewrite (proj2 (@simple_fetch_transport_failure (scripted [])
                    (@Isgd.cls py_ref (scripted [])) Isgd.self "abc" fresh_connection
                    "timed out") eq_refl).
  reflexivity.
Defined.

(** *** How many exchanges a call makes *)

Lemma sam_ret {A} n (a : A) : sends_at_most n (ret a).
Proof. intros c. exists []. split; [reflexivity | simpl; lia]. Qed.

Lemma sam_raise {A} n e : sends_at_most n (@raise A e).
Proof. intros c. exists []. split; [reflexivity | simpl; lia]. Qed.

Lemma sam_lift {A} n (r : result A) : sends_at_most n (lift r).
Proof. intros c. exists []. split; [reflexivity | simpl; lia]. Qed.

Lemma sam_close n : sends_at_most n conn_close.
Proof. intros c. exists []. split; [reflexivity | simpl; lia]. Qed.

Lemma sam_bind {A B} a b n (m : M A) (k : A -> M B) :
  sends_at_most a m -> (forall x, sends_at_most b (k x)) -> (a + b <= n)%nat ->
  sends_at_most n (bind m k).
Proof.
  intros Hm Hk Hn c. unfold bind.
  destruct (Hm c) as (l1 & E1 & L1).
  destruct (m c) as [[x | e] c1] eqn:Em; simpl in E1.
  - destruct (Hk x c1) as (l2 & E2 & L2).
    exists (l2 ++ l1)%list. rewrite E2, E1, app_assoc, length_app. split; [reflexivity | lia].
  - exists l1. simpl. split; [exact E1 | lia].
Qed.

Lemma sam_http_fetch `{Transport} n self code method :
  (1 <= n)%nat -> sends_at_most n (_http_fetch self code method).
Proof.
  intros Hn c. exists [http_request self code method].
  split; [apply http_fetch_sent | simpl; lia].
Qed.

Lemma sam_head `{Transport} n self code :
  (1 <= n)%nat -> sends_at_most n (_http_head self code).
Proof.
  intros Hn. unfold _http_head.
  apply (sam_bind 1 0); [now apply sam_http_fetch | intros; apply sam_ret | lia].
Qed.

Ltac sam :=
  repeat first
    [ apply sam_ret | apply sam_raise | apply sam_lift | apply sam_close
    | apply sam_head; lia
    | apply sam_http_fetch; lia
    | match goal with
      | |- sends_at_most _ (if ?b then _ else _) => destruct b
      | |- sends_at_most _ (match ?x with _ => _ end) => destruct x
      | |- sends_at_most _ (let _ := _ in _) => cbv zeta
      end ].

Lemma sam_simple_fetch `{Transport} n k cls self code :
  (forall resp, sends_at_most k (SimpleService.unexpected_http_status_of cls self code resp)) ->
  (1 + k <= n)%nat ->
  sends_at_most n (SimpleService.fetch cls self code).
Proof.
  intros Hhook Hn. unfold SimpleService.fetch.
  apply (sam_bind 1 k); [apply sam_head; lia | | exact Hn].
  intros resp. sam. apply Hhook.
Qed.

Lemma sam_default_hook n self code resp :
  sends_at_most n (SimpleService.unexpected_http_status self code resp).
Proof. unfold SimpleService.unexpected_http_status. sam. Qed.

Ltac sam_full :=
  sam;
  try first
    [ solve [apply (sam_bind 0 0); [sam_full | intros ?; sam_full | lia]]
    | solve [apply (sam_bind 1 0); [sam_full | intros ?; sam_full | lia]] ].

Lemma sam_isgd_hook `{PyLib} `{Transport} self code resp :
  sends_at_most 1 (Isgd.unexpected_http_status self code resp).
Proof.
  unfold Isgd.unexpected_http_status. destruct (negb _); [apply sam_default_hook |].
  apply (sam_bind 1 0); [sam | intros r; sam | lia].
Qed.

Lemma sam_owly_hook `{PyLib} `{Transport} self code resp :
  sends_at_most 1 (Owly.unexpected_http_status self code resp).
Proof.
  unfold Owly.unexpected_http_status. destruct (negb _); [apply sam_default_hook |].
  apply (sam_bind 1 0); [sam | intros r; sam_full | lia].
Qed.

Lemma sam_snipurl_hook `{PyLib} `{Transport} self code resp :
  sends_at_most 1 (Snipurl.unexpected_http_status self code resp).
Proof.
  unfold Snipurl.unexpected_http_status. destruct (negb _); [apply sam_default_hook |].
  apply (sam_bind 1 0); [sam | intros r; sam_full | lia].
Qed.

Lemma sam_visibli_hook `{PyLib} `{Transport} self code resp :
  sends_at_most 1 (BaseVisibliService.unexpected_http_status self code resp).
Proof.
  unfold BaseVisibliService.unexpected_http_status. sam_full.
Qed.

Lemma sam_tinyurl `{PyLib} `{Transport} code : sends_at_most 2 (Tinyurl.fetch code).
Proof.
  unfold Tinyurl.fetch.
  apply (sam_bind 1 1); [sam | intros resp | lia].
  unfold Tinyurl._fetch_200, Tinyurl._preview. sam_full.
Qed.

Lemma sam_bitly `{PyLib} `{Transport} code : sends_at_most 1 (Bitly.fetch code).
Proof.
  unfold Bitly.fetch.
  apply (sam_bind 1 0); [sam | intros resp; sam_full | lia].
Qed.

Lemma sam_yourls `{PyLib} `{Transport} self_path code :
  sends_at_most 1 (YourlsService.fetch self_path code).
Proof.
  intros c. exists [yourls_request self_path code].
  split; [| simpl; lia].
  unfold YourlsService.fetch, conn_exchange, yourls_request.
  destruct (server _ _); simpl; try reflexivity.
  destruct (status resp =? 200)%Z; [destruct (body =? "not found") |]; reflexivity.
Qed.

Lemma sam_googl `{PyLib} `{Transport} code : sends_at_most 1 (Googl.fetch code).
Proof.
  intros c. exists [googl_request code].
  split; [| simpl; lia].
  unfold Googl.fetch, conn_exchange, googl_request.
  destruct (server _ _); simpl; try reflexivity.
  destruct (status resp =? 200)%Z; [reflexivity |].
  destruct (status resp =? 403)%Z; [reflexivity |].
  destruct (status resp =? 404)%Z; reflexivity.
Qed.

Lemma sam_trim `{Transport} code : sends_at_most 1 (Trim.fetch code).
Proof.
  unfold Trim.fetch. cbv zeta.
  apply (sam_bind 1 0); [sam | intros resp; sam | lia].
Qed.

Lemma sam_pixorial `{Transport} code : sends_at_most 1 (Pixorial.fetch code).
Proof.
  unfold Pixorial.fetch. cbv zeta.
  apply (sam_bind 1 0); [sam | intros resp; sam | lia].
Qed.

Lemma sam_trimnew `{Transport} code : sends_at_most 1 (Trimnew.fetch code).
Proof.
  unfold Trimnew.fetch. destruct (code =? "500"); [sam |].
  apply (sam_bind 1 0); [| intros u; sam | lia].
  apply (sam_simple_fetch 1 0); [intros; apply sam_default_hook | lia].
Qed.

Lemma sam_snipurl `{PyLib} `{Transport} code : sends_at_most 2 (Snipurl.fetch code).
Proof.
  unfold Snipurl.fetch.
  apply (sam_bind 2 0); [| intros u; sam | lia].
  apply (sam_simple_fetch 2 1); [intros; apply sam_snipurl_hook | lia].
Qed.

(** One call of [fetch] makes at most two exchanges on the connection of
    the service, and at most one in the services that never fetch a page
    after the first answer; the requests made earlier stay as they were. *)
Theorem fetch_exchanges `{PyLib} `{Transport} (code : string) :
  (sends_at_most 1 (Bitly.fetch code)
   /\ sends_at_most 1 (Ur1ca.fetch code)
   /\ sends_at_most 1 (Googl.fetch code)
   /\ sends_at_most 1 (Trimnew.fetch code)
   /\ sends_at_most 1 (Postly.fetch code)
   /\ sends_at_most 1 (Wpme.fetch code)
   /\ sends_at_most 1 (Pixorial.fetch code)
   /\ sends_at_most 1 (Twitter.fetch code)
   /\ sends_at_most 1 (Trim.fetch code)
   /\ (forall self_path, sends_at_most 1 (YourlsService.fetch self_path code)))
  /\ (sends_at_most 2 (Isgd.fetch code)
      /\ sends_at_most 2 (Owly.fetch code)
      /\ sends_at_most 2 (Tinyurl.fetch code)
      /\ sends_at_most 2 (Snipurl.fetch code)
      /\ sends_at_most 2 (VisibliHex.fetch code)
      /\ sends_at_most 2 (Visibli.fetch code)).
Proof.
  split.
  - split; [apply sam_bitly |].
    split; [apply (sam_simple_fetch 1 0); [intros; apply sam_default_hook | lia] |].
    split; [apply sam_googl |].
    split; [apply sam_trimnew |].
    split; [apply (sam_simple_fetch 1 0); [intros; apply sam_default_hook | lia] |].
    split; [apply (sam_simple_fetch 1 0); [intros; apply sam_default_hook | lia] |].
    split; [apply sam_pixorial |].
    split; [apply (sam_simple_fetch 1 0); [intros; apply sam_default_hook | lia] |].
    split; [apply sam_trim |].
    intros p. apply sam_yourls.
  - split; [apply (sam_simple_fetch 2 1); [intros; apply sam_isgd_hook | lia] |].
    split; [apply (sam_simple_fetch 2 1); [intros; apply sam_owly_hook | lia] |].
    split; [apply sam_tinyurl |].
    split; [apply sam_snipurl |].
    split; apply (sam_simple_fetch 2 1); try lia; intros; apply sam_visibli_hook.
Qed.

(** *** Quirks of single services *)

(** [Snipurl.fetch] turns a redirect to the private-key page of the code
    into [CodeBlockedException]; any other location, and a location that
    is not ASCII, is returned as it is. *)
Theorem snipurl_private_key `{PyLib} `{Transport} (code : string) (c c' : connection)
    (resp : response) (location : string) :
  _http_head Snipurl.self code c = (Ok resp, c') ->
  status_in (status resp) [301; 302]%Z = true ->
  getheader resp "Location" = Some location -> location <> "" ->
  (location = "/site/getprivate?snip=" ++ code -> is_ascii location = true ->
   Snipurl.fetch code c = (Raise (CodeBlockedException (Some "Private key required")), c'))
  /\ (location <> "/site/getprivate?snip=" ++ code \/ is_ascii location = false ->
      Snipurl.fetch code c = (Ok (PyStr location), c')).
Proof.
  intros Hhead Hin Hloc Hne.
  assert (E : SimpleService.fetch Snipurl.cls Snipurl.self code c = (Ok (PyStr location), c')).
  { unfold SimpleService.fetch. rewrite (bind_ok _ _ _ _ _ Hhead).
    change (SimpleService.http_status_redirect Snipurl.cls) with [301; 302]%Z.
    now rewrite Hin, Hloc, (truthy_true _ Hne). }
  unfold Snipurl.fetch. rewrite (bind_ok _ _ _ _ _ E). split.
  - intros El Ha. rewrite Ha. rewrite <- El, String.eqb_refl. reflexivity.
  - intros [Nl | Na].
    + destruct (String.eqb_spec location ("/site/getprivate?snip=" ++ code));
        [contradiction |]. now rewrite andb_false_r.
    + now rewrite Na.
Qed.

Lemma snipurl_private_key_witness :
  fst (@Snipurl.fetch py_ref
         (scripted [Answer (moved_to 301 "Moved" "/site/getprivate?snip=abc") ""])
         "abc" fresh_connection)
  = Raise (CodeBlockedException (Some "Private key required")).
Proof.
  rewrite (proj1 (@snipurl_private_key py_ref
                    (scripted [Answer (moved_to 301 "Moved" "/site/getprivate?snip=abc") ""])
                    "abc" fresh_connection _ _ "/site/getprivate?snip=abc"
                    (head_scripted_close Snipurl.self "abc" _ "" [] eq_refl)
                    eq_refl eq_refl ltac:(discriminate)) eq_refl eq_refl).
  reflexivity.
Defined.

(** [Pixorial.fetch] reads a redirect to the home page of the service as
    [NoRedirectException]; every other location that is not empty is the
    long URL. *)
Theorem pixorial_home_page `{Transport} (code : string) (c c' : connection)
    (resp : response) (location : string) :
  _http_head Pixorial.self code c = (Ok resp, c') ->
  status_in (status resp) [301; 302]%Z = true ->
  getheader resp "Location" = Some location ->
  (location = "http://myhub.pixorial.com/" ->
   Pixorial.fetch code c = (Raise (NoRedirectException (Some "Redirected to home page")), c'))
  /\ (location <> "http://myhub.pixorial.com/" -> location <> "" ->
      Pixorial.fetch code c = (Ok (PyStr location), c')).
Proof.
  intros Hhead Hin Hloc. unfold Pixorial.fetch.
  rewrite (bind_ok _ _ _ _ _ Hhead). cbv zeta.
  change (SimpleService.http_status_redirect SimpleService.base) with [301; 302]%Z.
  rewrite Hin, Hloc. split.
  - intros E. now rewrite E.
  - intros N1 N2.
    destruct (String.eqb_spec location "http://myhub.pixorial.com/"); [contradiction |].
    now rewrite (truthy_true _ N2).
Qed.

Lemma pixorial_home_page_witness :
  fst (@Pixorial.fetch (scripted [Answer (moved_to 302 "Found" "http://myhub.pixorial.com/") ""])
         "abc" fresh_connection)
  = Raise (NoRedirectException (Some "Redirected to home page")).
Proof.
  rewrite (proj1 (@pixorial_home_page
                    (scripted [Answer (moved_to 302 "Found" "http://myhub.pixorial.com/") ""])
                    "abc" fresh_connection _ _ "http://myhub.pixorial.com/"
                    (head_scripted_close Pixorial.self "abc" _ "" [] eq_refl)
                    eq_refl eq_refl) eq_refl).
  reflexivity.
Defined.

(** [Tinyurl.fetch] on the statuses it settles with one exchange: a 301
    without a location is [CodeBlockedException] (not a service error), a
    301 whose [X-tiny] header is absent or does not start with [aff]
    returns the location, 302 is [CodeBlockedException], 404 is
    [NoRedirectException], 500 is [ServiceException] on a closed
    connection, and a status it does not know is [ServiceException]. *)
Theorem tinyurl_single_exchange `{PyLib} `{Transport} (code : string)
    (c c' : connection) (resp : response) :
  _http_head Tinyurl.self code c = (Ok resp, c') ->
  (status resp = 301%Z ->
   (getheader resp "Location" = None \/ getheader resp "Location" = Some "" ->
    Tinyurl.fetch code c
    = (Raise (CodeBlockedException (Some "No Location header after HTTP status 301")), c'))
   /\ (forall location,
       getheader resp "Location" = Some location -> location <> "" ->
       (getheader resp "X-tiny" = None
        \/ exists tiny, getheader resp "X-tiny" = Some tiny /\ take 3 tiny <> "aff") ->
       Tinyurl.fetch code c = (Ok (PyStr location), c')))
  /\ (status resp = 302%Z -> Tinyurl.fetch code c = (Raise (CodeBlockedException None), c'))
  /\ (status resp = 404%Z -> Tinyurl.fetch code c = (Raise (NoRedirectException None), c'))
  /\ (status resp = 500%Z ->
      Tinyurl.fetch code c
      = (Raise (ServiceException "HTTP status 500"), mkConnection (sent c') false))
  /\ (~ In (status resp) [200; 301; 302; 404; 500]%Z ->
      Tinyurl.fetch code c
      = (Raise (ServiceException ("Unknown HTTP status " ++ fmt_i (status resp))), c')).
Proof.
  intros Hhead. unfold Tinyurl.fetch. rewrite (bind_ok _ _ _ _ _ Hhead).
  split; [| split; [| split; [| split]]].
  - intros Hst. rewrite Hst.
    change (301 =? 200)%Z with false. change (301 =? 301)%Z with true. cbv iota. split.
    + intros [E | E]; now rewrite E.
    + intros location Hloc Hne Htiny. rewrite Hloc, (truthy_true _ Hne).
      destruct Htiny as [E | (tiny & E & Naff)]; rewrite E; [reflexivity |].
      destruct (String.eqb_spec (take 3 tiny) "aff"); [contradiction |].
      destruct (truthy tiny); reflexivity.
  - intros Hst. now rewrite Hst.
  - intros Hst. now rewrite Hst.
  - intros Hst. now rewrite Hst.
  - intros Hout.
    rewrite !eqb_status_neq; [reflexivity | | | | |];
      intros E; apply Hout; rewrite E; simpl; tauto.
Qed.

Lemma tinyurl_single_exchange_witness :
  fst (@Tinyurl.fetch py_ref (scripted [Answer (resp_of 301 []) ""]) "abc" fresh_connection)
  = Raise (CodeBlockedException (Some "No Location header after HTTP status 301"))
  /\ fst (@Tinyurl.fetch py_ref (scripted [Answer (resp_of 500 []) ""]) "abc" fresh_connection)
     = Raise (ServiceException "HTTP status 500").
Proof.
  split.
  - rewrite (proj1 (proj1 (@tinyurl_single_exchange py_ref
                    (scripted [Answer (resp_of 301 []) ""]) "abc" fresh_connection _ _
                    (head_scripted Tinyurl.self "abc" (resp_of 301 []) "" [] eq_refl))
                    eq_refl) (or_introl eq_refl)).
    reflexivity.
  - rewrite (proj1 (proj2 (proj2 (proj2 (@tinyurl_single_exchange py_ref
                    (scripted [Answer (resp_of 500 []) ""]) "abc" fresh_connection _ _
                    (head_scripted Tinyurl.self "abc" (resp_of 500 []) "" [] eq_refl)))))
               eq_refl).
    reflexivity.
Defined.

(** [Tinyurl._scrub_url] lets the exception of [urlparse] escape; on a URL
    that [urlparse] accepts it leaves the URL as it is, except one that
    points at the click counter [redirect.tinyurl.com/api/click]: of that
    one it returns the first [out] value, and it raises [KeyError] when the
    query has no [out] value. *)
Theorem tinyurl_scrub_url `{PyLib} (code url : string) :
  (forall e, urlparse url = Raise e -> Tinyurl._scrub_url code url = Raise e)
  /\ (forall parsed, urlparse url = Ok parsed ->
      (hostname parsed = Some "redirect.tinyurl.com" /\ path parsed = "/api/click" ->
       (forall v vs, dict_get "out" (parse_qs (query parsed)) = Some (v :: vs) ->
        Tinyurl._scrub_url code url = Ok (PyStr v))
       /\ (dict_get "out" (parse_qs (query parsed)) = None ->
           Tinyurl._scrub_url code url = Raise (KeyError "out")))
      /\ (hostname parsed <> Some "redirect.tinyurl.com"
          \/ path parsed <> "/api/click" ->
          Tinyurl._scrub_url code url = Ok (PyStr url))).
Proof.
  unfold Tinyurl._scrub_url. split.
  - intros e E. now rewrite E.
  - intros parsed E. rewrite E. split.
    + intros [Hh Hp]. rewrite Hh, Hp. simpl. split.
      * intros v vs Q. now rewrite Q.
      * intros Q. now rewrite Q.
    + intros [Nh | Np].
      * destruct (hostname parsed) as [h |]; [| reflexivity].
        destruct (String.eqb_spec h "redirect.tinyurl.com"); [subst; contradiction |].
        reflexivity.
      * destruct (hostname parsed) as [h |]; [| reflexivity].
        destruct (String.eqb_spec (path parsed) "/api/click"); [contradiction |].
        now rewrite andb_false_r.
Qed.

Lemma tinyurl_scrub_url_witness :
  @Tinyurl._scrub_url py_ref "abc"
     "http://redirect.tinyurl.com/api/click?key=k&out=http%3A%2F%2Fexample.org%2F"
  = Ok (PyStr "http://example.org/")
  /\ @Tinyurl._scrub_url py_ref "abc" "http://redirect.tinyurl.com/api/click?key=k"
     = Raise (KeyError "out")
  /\ @Tinyurl._scrub_url py_ref "abc" "http://example.org/api/click?out=x"
     = Ok (PyStr "http://example.org/api/click?out=x")
  /\ @Tinyurl._scrub_url py_ref "abc" "http://[redirect.tinyurl.com/api/click?out=x"
     = Raise (ValueError "Invalid IPv6 URL").
Proof.
  split; [| split; [| split]].
  - apply (proj1 (proj1 (proj2 (@tinyurl_scrub_url py_ref "abc"
        "http://redirect.tinyurl.com/api/click?key=k&out=http%3A%2F%2Fexample.org%2F")
        _ ltac:(vm_compute; reflexivity)) (conj eq_refl eq_refl)) _ []).
    vm_compute. reflexivity.
  - apply (proj2 (proj1 (proj2 (@tinyurl_scrub_url py_ref "abc"
        "http://redirect.tinyurl.com/api/click?key=k") _ ltac:(vm_compute; reflexivity))
        (conj eq_refl eq_refl))).
    vm_compute. reflexivity.
  - apply (proj2 (proj2 (@tinyurl_scrub_url py_ref "abc" "http://example.org/api/click?out=x")
                    _ ltac:(vm_compute; reflexivity))).
    left. vm_compute. discriminate.
  - apply (proj1 (@tinyurl_scrub_url py_ref "abc"
                    "http://[redirect.tinyurl.com/api/click?out=x")).
    vm_compute. reflexivity.
Defined.

(** *** Pages and patterns *)

Lemma append_assoc_str (a b c : string) : (a ++ b) ++ c = a ++ (b ++ c).
Proof. induction a as [| x a IH]; simpl; [reflexivity | now rewrite IH]. Qed.

Lemma prefix_append p s : prefix p s = true <-> exists r, s = p ++ r.
Proof.
  revert s. induction p as [| x p IH]; intros s.
  - split; [intros _; now exists s | intros _; destruct s; reflexivity].
  - destruct s as [| y s]; simpl.
    + split; [discriminate | intros [r E]; discriminate].
    + destruct (ascii_dec x y) as [E | N].
      * subst y. split.
        -- intros P. apply IH in P. destruct P as [r E]. exists r. now rewrite E.
        -- intros [r E]. apply IH. exists r. now inversion E.
      * split; [discriminate | intros [r E]; simpl in E; congruence].
Qed.

(** The substring test: [contains needle hay] holds exactly when [needle]
    stands somewhere in [hay]. *)
Lemma contains_append needle hay :
  contains needle hay = true <-> exists a b, hay = a ++ needle ++ b.
Proof.
  induction hay as [| y hay IH]; cbn [contains].
  - rewrite orb_false_r. split.
    + intros P. apply prefix_append in P. destruct P as [r E]. now exists "", r.
    + intros (a & b & E). apply prefix_append. destruct a; [now exists b | discriminate].
  - split.
    + intros P. apply orb_true_iff in P. destruct P as [P | P].
      * apply prefix_append in P. destruct P as [r E]. now exists "", r.
      * apply IH in P. destruct P as (a & b & E).
        exists (String y a), b. simpl. now rewrite E.
    + intros (a & b & E). apply orb_true_iff. destruct a as [| x a]; simpl in E.
      * left. apply prefix_append. now exists b.
      * right. apply IH. inversion E. now exists a, b.
Qed.

Lemma match_atoms_lit d p s r : match_atoms d (lit p) s = Some r <-> s = p ++ r.
Proof.
  revert s. induction p as [| x p IH]; intros s; simpl.
  - split; intros E; [now inversion E | now rewrite E].
  - destruct s as [| y s].
    + split; discriminate.
    + destruct (Ascii.eqb_spec x y) as [E | N].
      * subst y. split.
        -- intros M. apply IH in M. now rewrite M.
        -- intros E. apply IH. now inversion E.
      * split; [discriminate | intros E; congruence].
Qed.

Lemma lazy_group_lit d sf s g :
  lazy_group d (lit sf) s = Some g ->
  (exists r, s = g ++ sf ++ r) /\ (d = false -> no_newline g = true).
Proof.
  revert g. induction s as [| y s IH]; intros g; simpl; unfold matches_here.
  - destruct (match_atoms d (lit sf) "") as [r |] eqn:E; [| discriminate].
    intros G. inversion G. apply match_atoms_lit in E. split; [now exists r | reflexivity].
  - destruct (match_atoms d (lit sf) (String y s)) as [r |] eqn:E.
    + intros G. inversion G. apply match_atoms_lit in E. split; [now exists r | reflexivity].
    + destruct (d || negb (Ascii.eqb y newline)) eqn:Ed; [| discriminate].
      destruct (lazy_group d (lit sf) s) as [g' |] eqn:G'; [| discriminate].
      intros G. inversion G. destruct (IH g' eq_refl) as [[r Er] Hn]. split.
      * exists r. simpl. now rewrite Er.
      * intros D. subst d. simpl in *. now rewrite Ed, (Hn eq_refl).
Qed.

Lemma greedy_group_lit d sf s g :
  greedy_group d (lit sf) s = Some g ->
  (exists r, s = g ++ sf ++ r) /\ (d = false -> no_newline g = true).
Proof.
  assert (Hstop : forall s g,
             (if matches_here d (lit sf) s then Some "" else None) = Some g ->
             (exists r, s = g ++ sf ++ r) /\ (d = false -> no_newline g = true)).
  { intros s0 g0. unfold matches_here.
    destruct (match_atoms d (lit sf) s0) as [r |] eqn:E; [| discriminate].
    intros G. inversion G. apply match_atoms_lit in E. split; [now exists r | reflexivity]. }
  revert g. induction s as [| y s IH]; intros g; simpl; [apply Hstop |].
  destruct (d || negb (Ascii.eqb y newline)) eqn:Ed; [| apply Hstop].
  destruct (greedy_group d (lit sf) s) as [g' |] eqn:G'; [| apply Hstop].
  intros G. inversion G. destruct (IH g' eq_refl) as [[r Er] Hn]. split.
  - exists r. simpl. now rewrite Er.
  - intros D. subst d. simpl in *. now rewrite Ed, (Hn eq_refl).
Qed.

Lemma re_search_group_in_page (lazy : bool) d pre sf data g :
  re_search (if lazy then lazy_group else greedy_group) d (lit pre) (lit sf) data = Some g ->
  (exists a b, data = a ++ pre ++ g ++ sf ++ b)
  /\ (d = false -> no_newline g = true).
Proof.
  assert (Hg : forall s g0,
             (if lazy then lazy_group else greedy_group) d (lit sf) s = Some g0 ->
             (exists r, s = g0 ++ sf ++ r) /\ (d = false -> no_newline g0 = true)).
  { destruct lazy; [apply lazy_group_lit | apply greedy_group_lit]. }
  assert (Hhere : forall s,
             match match_atoms d (lit pre) s with
             | Some rest => (if lazy then lazy_group else greedy_group) d (lit sf) rest
             | None => None
             end = Some g ->
             (exists a b, s = a ++ pre ++ g ++ sf ++ b)
             /\ (d = false -> no_newline g = true)).
  { intros s. destruct (match_atoms d (lit pre) s) as [rest |] eqn:E; [| discriminate].
    intros G. apply match_atoms_lit in E. destruct (Hg _ _ G) as [[r Er] Hn]. split.
    - exists "", r. simpl. now rewrite E, Er.
    - exact Hn. }
  induction data as [| y data IH]; simpl.
  - destruct (match match_atoms d (lit pre) "" with Some _ => _ | None => _ end) eqn:E;
      [| discriminate].
    intros G. inversion G. subst. now apply Hhere.
  - destruct (match match_atoms d (lit pre) (String y data) with Some _ => _ | None => _ end)
      eqn:E.
    + intros G. inversion G. subst. now apply Hhere.
    + intros G. destruct (IH G) as [(a & b & Eab) Hn]. split; [| exact Hn].
      exists (String y a), b. simpl. now rewrite Eab.
Qed.

(** What a search with one of the module's patterns finds is text of
    the page: the group stands in the page between the two literals of the
    pattern, and without [re.DOTALL] it holds no line break. *)
Theorem re_search_finds_group (lazy : bool) d pre sf data g :
  re_search (if lazy then lazy_group else greedy_group) d (lit pre) (lit sf) data = Some g ->
  (exists a b, data = a ++ pre ++ g ++ sf ++ b)
  /\ (d = false -> no_newline g = true).
Proof. apply re_search_group_in_page. Qed.

Lemma re_search_finds_group_witness :
  exists a b,
    "<p>x</p><a href=u>go</a><br>" = a ++ "<a href=" ++ "u" ++ ">" ++ b.
Proof.
  apply (proj1 (re_search_finds_group true false "<a href=" ">"
                  "<p>x</p><a href=u>go</a><br>" "u" eq_refl)).
Defined.

Lemma re_search_needs_prefix (lazy : bool) d pre sf data :
  contains pre data = false ->
  re_search (if lazy then lazy_group else greedy_group) d (lit pre) (lit sf) data = None.
Proof.
  intros N.
  destruct (re_search _ d (lit pre) (lit sf) data) as [g |] eqn:E; [| reflexivity].
  destruct (re_search_group_in_page lazy d pre sf data g E) as [(a & b & Eab) _].
  assert (C : contains pre data = true) by (apply contains_append; eauto).
  congruence.
Qed.

Lemma search_iframe_needs_open data :
  contains iframe_open data = false -> BaseVisibliService.search_iframe data = None.
Proof.
  induction data as [| y data IH]; cbn [contains BaseVisibliService.search_iframe]; intros N.
  - apply orb_false_iff in N. destruct N as [N _].
    destruct (match_atoms false (lit ("<iframe id=" ++ dq)) "") as [r |] eqn:E; [| reflexivity].
    apply match_atoms_lit in E.
    assert (P : prefix iframe_open "" = true) by (apply prefix_append; now exists r).
    congruence.
  - apply orb_false_iff in N. destruct N as [N1 N2].
    destruct (match_atoms false (lit ("<iframe id=" ++ dq)) (String y data)) as [r |] eqn:E.
    + apply match_atoms_lit in E.
      assert (P : prefix iframe_open (String y data) = true)
        by (apply prefix_append; now exists r).
      congruence.
    + now apply IH.
Qed.

(** The safety-warning path of Owly (HEAD 200, GET 200): a page without
    the opening literal of the pattern is [ServiceException], and a value
    is returned only when it is the unescaped text that stands in the page
    between the two literals, on one line. *)
Theorem owly_warning_page_result `{PyLib} `{Transport} (code : string)
    (c c1 c2 : connection) (resp1 resp2 : response) (data : string) :
  _http_head Owly.self code c = (Ok resp1, c1) -> status resp1 = 200%Z ->
  _http_get Owly.self code c1 = (Ok (resp2, data), c2) -> status resp2 = 200%Z ->
  (contains owly_open data = false ->
   Owly.fetch code c
   = (Raise (ServiceException "Could not find target URL in safety warning"), c2))
  /\ (forall v, fst (Owly.fetch code c) = Ok v ->
      exists g url a b,
        data = a ++ owly_open ++ g ++ owly_close ++ b
        /\ no_newline g = true /\ unescape_utf8 g = Ok url /\ v = PyStr url).
Proof.
  intros Hhead Hst1 Hget Hst2.
  unfold Owly.fetch, SimpleService.fetch.
  rewrite (bind_ok _ _ _ _ _ Hhead). simpl Owly.cls.
  cbv beta iota delta [SimpleService.http_status_redirect
    SimpleService.http_status_no_redirect SimpleService.http_status_code_blocked
    SimpleService.http_status_blocked SimpleService.unexpected_http_status_of Owly.cls].
  rewrite Hst1.
  change (status_in 200 [301; 302]%Z) with false.
  change (status_in 200 [404]%Z) with false.
  change (status_in 200 [410]%Z) with false.
  change (status_in 200 [403; 420; 429]%Z) with false. cbv iota.
  unfold Owly.unexpected_http_status. rewrite Hst1.
  change (negb (200 =? 200)%Z) with false. cbv iota.
  rewrite (bind_ok _ _ _ _ _ Hget). cbv zeta. cbn [fst snd]. rewrite Hst2.
  change (negb (200 =? 200)%Z) with false. cbv iota.
  fold owly_open. fold owly_close. split.
  - intros N. now rewrite (re_search_needs_prefix true false _ _ _ N).
  - intros v.
    destruct (re_search lazy_group false (lit owly_open) (lit owly_close) data) as [g |] eqn:E;
      [| discriminate].
    destruct (re_search_group_in_page true false _ _ _ _ E) as [(a & b & Eab) Hn].
    unfold bind, lift, ret. destruct (unescape_utf8 g) as [url | e] eqn:U; simpl;
      [| discriminate].
    intros Ev. inversion Ev. exists g, url, a, b. auto.
Qed.

Lemma owly_warning_page_result_witness :
  fst (@Owly.fetch py_ref
         (scripted [Answer (resp_of 200 []) ""; Answer (resp_of 200 []) "<html>nothing</html>"])
         "abc" fresh_connection)
  = Raise (ServiceException "Could not find target URL in safety warning")
  /\ fst (@Owly.fetch py_ref
            (scripted [Answer (resp_of 200 []) ""; Answer (resp_of 200 []) owly_warning_page])
            "abc" fresh_connection)
     = Ok (PyStr "http://example.org/?a=1&b=2").
Proof.
  split.
  - destruct (get_after_head Owly.self "abc" (Answer (resp_of 200 []) "")
                (resp_of 200 []) "<html>nothing</html>" [] eq_refl) as [c2 Hget].
    rewrite (proj1 (@owly_warning_page_result py_ref
                      (scripted [Answer (resp_of 200 []) "";
                                 Answer (resp_of 200 []) "<html>nothing</html>"])
                      "abc" fresh_connection _ c2 _ _ _
                      (head_scripted Owly.self "abc" _ "" _ eq_refl) eq_refl Hget eq_refl)
               ltac:(vm_compute; reflexivity)).
    reflexivity.
  - vm_compute. reflexivity.
Defined.

(** The other re-fetching paths with a page that lacks the opening
    literal of their pattern: Snipurl (HEAD 500, GET 500) and
    BaseVisibliService (HEAD 200, GET 200) raise [ServiceException], and
    so does [Tinyurl._fetch_200] on a page that carries neither of its two
    markers. *)
Theorem missing_fragment_is_ServiceError `{PyLib} `{Transport} (code : string)
    (c1 c2 : connection) (resp2 : response) (data : string) :
  (forall resp1,
      status resp1 = 500%Z ->
      _http_get Snipurl.self code c1 = (Ok (resp2, data), c2) -> status resp2 = 500%Z ->
      contains snipurl_open data = false ->
      Snipurl.unexpected_http_status Snipurl.self code resp1 c1
      = (Raise (ServiceException "Could not find target URL on preview page"), c2))
  /\ (forall self resp1,
      status resp1 = 200%Z ->
      _http_get self code c1 = (Ok (resp2, data), c2) -> status resp2 = 200%Z ->
      contains iframe_open data = false ->
      exists m,
        BaseVisibliService.unexpected_http_status self code resp1 c1
        = (Raise (ServiceException m), c2))
  /\ (_http_get Tinyurl.self code c1 = (Ok (resp2, data), c2) -> status resp2 = 200%Z ->
      contains "<title>Redirecting...</title>" data = false ->
      contains "Error: TinyURL redirects to a TinyURL." data = false ->
      Tinyurl._fetch_200 code c1
      = (Raise (ServiceException "Unexpected response on status 200"), c2)).
Proof.
  split; [| split].
  - intros resp1 Hst1 Hget Hst2 N.
    unfold Snipurl.unexpected_http_status. rewrite Hst1.
    change (negb (500 =? 500)%Z) with false. cbv iota.
    rewrite (bind_ok _ _ _ _ _ Hget). cbv zeta. cbn [fst snd]. rewrite Hst2.
    change (negb (500 =? 500)%Z) with false. cbv iota.
    fold snipurl_open.
    now rewrite (re_search_needs_prefix true false _ _ _ N).
  - intros self resp1 Hst1 Hget Hst2 N.
    unfold BaseVisibliService.unexpected_http_status. rewrite Hst1.
    change (200 =? 302)%Z with false. change (negb (200 =? 200)%Z) with false. cbv iota.
    rewrite (bind_ok _ _ _ _ _ Hget). cbv zeta. cbn [fst snd]. rewrite Hst2.
    change (negb (200 =? 200)%Z) with false. cbv iota.
    rewrite (search_iframe_needs_open _ N).
    destruct (contains "Undefined index:  HTTP_USER_AGENT" data); eexists; reflexivity.
  - intros Hget Hst2 N1 N2. unfold Tinyurl._fetch_200.
    rewrite (bind_ok _ _ _ _ _ Hget). cbv zeta. cbn [fst snd]. rewrite Hst2.
    change (negb (200 =? 200)%Z) with false. cbv iota.
    now rewrite N1, N2.
Qed.

Lemma missing_fragment_is_ServiceError_witness :
  fst (@Tinyurl._fetch_200 py_ref
         (scripted [Answer (resp_of 200 []) ""; Answer (resp_of 200 []) "<html>nothing</html>"])
         "abc" (after_head Tinyurl.self "abc"))
  = Raise (ServiceException "Unexpected response on status 200").
Proof.
  destruct (get_after_head Tinyurl.self "abc" (Answer (resp_of 200 []) "")
              (resp_of 200 []) "<html>nothing</html>" [] eq_refl) as [c2 Hget].
  rewrite (proj2 (proj2 (@missing_fragment_is_ServiceError py_ref
                    (scripted [Answer (resp_of 200 []) "";
                               Answer (resp_of 200 []) "<html>nothing</html>"])
                    "abc" (after_head Tinyurl.self "abc") c2 (resp_of 200 [])
                    "<html>nothing</html>"))
             Hget eq_refl ltac:(vm_compute; reflexivity) ltac:(vm_compute; reflexivity)).
  reflexivity.
Defined.

(** [BaseVisibliService] on status 302, which its tables leave to the
    hook: a location that names sharedby or visibli is
    [NoRedirectException], one that starts with [http://yahoo.com] is
    [BlockedException], any other location is returned as it is, even when
    it is empty, and without a [Location] header the call returns [None],
    which is none of the outcomes. *)
Theorem visibli_302 `{PyLib} `{Transport} (self : HTTPService) (code : string)
    (c c' : connection) (resp : response) :
  _http_head self code c = (Ok resp, c') -> status resp = 302%Z ->
  (forall l, getheader resp "Location" = Some l -> l <> "" ->
      contains "sharedby" l = true \/ contains "visibli" l = true ->
      SimpleService.fetch BaseVisibliService.cls self code c
      = (Raise (NoRedirectException None), c'))
  /\ (forall l, getheader resp "Location" = Some l -> l <> "" ->
      contains "sharedby" l = false -> contains "visibli" l = false ->
      startswith "http://yahoo.com" l = true ->
      SimpleService.fetch BaseVisibliService.cls self code c
      = (Raise (BlockedException (Some ("Banned (location=" ++ l ++ ")"))), c'))
  /\ (forall l, getheader resp "Location" = Some l ->
      l = "" \/ (contains "sharedby" l = false /\ contains "visibli" l = false
                 /\ startswith "http://yahoo.com" l = false) ->
      SimpleService.fetch BaseVisibliService.cls self code c = (Ok (PyStr l), c'))
  /\ (getheader resp "Location" = None ->
      SimpleService.fetch BaseVisibliService.cls self code c = (Ok PyNone, c')
      /\ classify (fst (SimpleService.fetch BaseVisibliService.cls self code c)) = None).
Proof.
  intros Hhead Hst.
  assert (E : SimpleService.fetch BaseVisibliService.cls self code c
              = BaseVisibliService.unexpected_http_status self code resp c').
  { unfold SimpleService.fetch. rewrite (bind_ok _ _ _ _ _ Hhead).
    cbv beta iota delta [SimpleService.http_status_redirect
      SimpleService.http_status_no_redirect SimpleService.http_status_code_blocked
      SimpleService.http_status_blocked SimpleService.unexpected_http_status_of
      BaseVisibliService.cls].
    rewrite Hst. reflexivity. }
  rewrite E. unfold BaseVisibliService.unexpected_http_status. rewrite Hst.
  change (302 =? 302)%Z with true. cbv iota.
  split; [| split; [| split]].
  - intros l Hl Hne Hc. rewrite Hl, (truthy_true _ Hne).
    apply orb_true_iff in Hc. now rewrite Hc.
  - intros l Hl Hne N1 N2 Hy. now rewrite Hl, (truthy_true _ Hne), N1, N2, Hy.
  - intros l Hl [Hemp | (N1 & N2 & N3)]; rewrite Hl.
    + subst l. reflexivity.
    + rewrite N1, N2, N3. now rewrite !andb_false_r.
  - intros Hl. now rewrite Hl.
Qed.

Lemma visibli_302_witness :
  fst (@Visibli.fetch py_ref (scripted [Answer (moved_to 302 "Found" "http://sharedby.co/x") ""])
         "AHbpFG" fresh_connection) = Raise (NoRedirectException None)
  /\ fst (@Visibli.fetch py_ref (scripted [Answer (resp_of 302 []) ""])
            "AHbpFG" fresh_connection) = Ok PyNone.
Proof.
  split; unfold Visibli.fetch.
  - rewrite (proj1 (@visibli_302 py_ref
                      (scripted [Answer (moved_to 302 "Found" "http://sharedby.co/x") ""])
                      Visibli.self "AHbpFG" fresh_connection _ _
                      (head_scripted Visibli.self "AHbpFG" _ "" [] eq_refl) eq_refl)
               "http://sharedby.co/x" eq_refl ltac:(discriminate)
               (or_introl (eq_refl : contains "sharedby" "http://sharedby.co/x" = true))).
    reflexivity.
  - rewrite (proj1 (proj2 (proj2 (proj2 (@visibli_302 py_ref
                      (scripted [Answer (resp_of 302 []) ""])
                      Visibli.self "AHbpFG" fresh_connection _ _
                      (head_scripted Visibli.self "AHbpFG" _ "" [] eq_refl) eq_refl)))
               eq_refl)).
    reflexivity.
Defined.

(** The 200 pages of is.gd: an empty page is [CodeBlockedException], and
    a page that carries the rate-limit banner anywhere is
    [BlockedException], whatever else it carries. *)
Theorem isgd_page_classes `{PyLib} `{Transport} (code : string)
    (c c1 c2 : connection) (resp1 resp2 : response) (data : string) :
  _http_head Isgd.self code c = (Ok resp1, c1) -> status resp1 = 200%Z ->
  _http_get Isgd.self code c1 = (Ok (resp2, data), c2) -> status resp2 = 200%Z ->
  (data = "" ->
   Isgd.fetch code c = (Raise (CodeBlockedException (Some "Empty response on status 200")), c2))
  /\ ((exists a b, data = a ++ Isgd.rate_limit_banner ++ b) ->
      Isgd.fetch code c = (Raise (BlockedException None), c2)).
Proof.
  intros Hhead Hst1 Hget Hst2.
  unfold Isgd.fetch, SimpleService.fetch.
  rewrite (bind_ok _ _ _ _ _ Hhead).
  cbv beta iota delta [SimpleService.http_status_redirect
    SimpleService.http_status_no_redirect SimpleService.http_status_code_blocked
    SimpleService.http_status_blocked SimpleService.unexpected_http_status_of Isgd.cls].
  rewrite Hst1.
  change (status_in 200 [301; 302]%Z) with false.
  change (status_in 200 [404]%Z) with false.
  change (status_in 200 [502]%Z) with false.
  change (status_in 200 [403; 420; 429]%Z) with false. cbv iota.
  unfold Isgd.unexpected_http_status. rewrite Hst1.
  change (negb (200 =? 200)%Z) with false. cbv iota.
  rewrite (bind_ok _ _ _ _ _ Hget). cbv zeta. cbn [fst snd]. rewrite Hst2.
  change (negb (200 =? 200)%Z) with false. cbv iota. split.
  - intros E. subst data. reflexivity.
  - intros Hb. pose proof (proj2 (contains_append _ _) Hb) as Cb. rewrite Cb.
    destruct Hb as (a & b & E).
    assert (Hne : data <> "").
    { intros Z. rewrite Z in E. destruct a; discriminate. }
    now rewrite (truthy_true _ Hne).
Qed.

Lemma isgd_page_classes_witness :
  fst (@Isgd.fetch py_ref (scripted [Answer (resp_of 200 []) ""; Answer (resp_of 200 []) ""])
         "abc" fresh_connection)
  = Raise (CodeBlockedException (Some "Empty response on status 200")).
Proof.
  destruct (get_after_head Isgd.self "abc" (Answer (resp_of 200 []) "")
              (resp_of 200 []) "" [] eq_refl) as [c2 Hget].
  rewrite (proj1 (@isgd_page_classes py_ref
                    (scripted [Answer (resp_of 200 []) ""; Answer (resp_of 200 []) ""])
                    "abc" fresh_connection _ c2 _ _ _
                    (head_scripted Isgd.self "abc" _ "" _ eq_refl) eq_refl Hget eq_refl)
             eq_refl).
  reflexivity.
Defined.

(** The status tables of the classes are pairwise disjoint, with one
    exception: Snipurl lists 410 as no-redirect and inherits it as
    code-blocked. *)
Theorem status_tables_disjoint `{PyLib} `{Transport} :
  tables_disjoint SimpleService.base
  /\ tables_disjoint Isgd.cls
  /\ tables_disjoint Owly.cls
  /\ tables_disjoint Ur1ca.cls
  /\ tables_disjoint Trimnew.cls
  /\ tables_disjoint Postly.cls
  /\ tables_disjoint BaseVisibliService.cls
  /\ ~ tables_disjoint Snipurl.cls
  /\ In 410%Z (SimpleService.http_status_no_redirect Snipurl.cls)
  /\ In 410%Z (SimpleService.http_status_code_blocked Snipurl.cls).
Proof.
  unfold tables_disjoint.
  repeat match goal with
         | |- _ /\ _ => split
         | |- NoDup _ => simpl; repeat constructor; simpl; intuition discriminate
         end.
  - simpl. intros N. inversion N as [| ? ? _ N1]. inversion N1 as [| ? ? _ N2].
    inversion N2 as [| ? ? N3 _]. apply N3. simpl. tauto.
  - simpl. tauto.
  - simpl. tauto.
Qed.

Lemma span_not_dq_spec s run tl :
  span_not_dq s = (run, tl) ->
  s = run ++ tl /\ contains dq run = false.
Proof.
  revert run tl. induction s as [| y s IH]; intros run tl; simpl.
  - intros E. inversion E. split; reflexivity.
  - destruct (Ascii.eqb_spec y (ascii_of_nat 34)) as [Ey | Ny].
    + intros E. inversion E. split; reflexivity.
    + destruct (span_not_dq s) as [run' tl'] eqn:Es.
      intros E. destruct (IH run' tl' eq_refl) as [E1 E2].
      inversion E. subst run tl.
      split; [simpl; now rewrite E1 |].
      cbn [contains]. rewrite E2, orb_false_r.
      unfold dq. cbn [prefix].
      destruct (ascii_dec (ascii_of_nat 34) y); [congruence | reflexivity].
Qed.

(** The address [BaseVisibliService] takes from a page is not empty, holds
    no double quote, and stands in the page between [src="] and [">]. *)
Theorem search_iframe_src (data g : string) :
  BaseVisibliService.search_iframe data = Some g ->
  g <> "" /\ contains dq g = false
  /\ exists a b, data = a ++ (dq ++ " src=" ++ dq) ++ g ++ (dq ++ ">") ++ b.
Proof.
  assert (Hplus : forall sf s run rest,
             not_dq_plus (lit sf) s = Some (run, rest) ->
             run <> "" /\ contains dq run = false /\ s = run ++ sf ++ rest).
  { intros sf s run rest. unfold not_dq_plus.
    destruct (span_not_dq s) as [r tl] eqn:Es.
    destruct (truthy r) eqn:Et; [| discriminate].
    destruct (match_atoms false (lit sf) tl) as [rest' |] eqn:Em; [| discriminate].
    intros E. inversion E. subst. apply match_atoms_lit in Em.
    destruct (span_not_dq_spec _ _ _ Es) as [E1 E2].
    split; [intros Z; subst; discriminate |]. split; [exact E2 |]. now rewrite E1, Em. }
  assert (Hhere : forall s,
             match match_atoms false (lit ("<iframe id=" ++ dq)) s with
             | Some rest =>
                 match not_dq_plus (lit (dq ++ " src=" ++ dq)) rest with
                 | Some (_, rest') =>
                     match not_dq_plus (lit (dq ++ ">")) rest' with
                     | Some (src, _) => Some src
                     | None => None
                     end
                 | None => None
                 end
             | None => None
             end = Some g ->
             g <> "" /\ contains dq g = false
             /\ exists a b, s = a ++ (dq ++ " src=" ++ dq) ++ g ++ (dq ++ ">") ++ b).
  { intros s. destruct (match_atoms _ _ s) as [rest |] eqn:Em; [| discriminate].
    destruct (not_dq_plus _ rest) as [[id rest'] |] eqn:E1; [| discriminate].
    destruct (not_dq_plus _ rest') as [[src rest''] |] eqn:E2; [| discriminate].
    intros E. inversion E. subst src.
    apply match_atoms_lit in Em.
    destruct (Hplus _ _ _ _ E1) as (_ & _ & R1).
    destruct (Hplus _ _ _ _ E2) as (G1 & G2 & R2).
    split; [exact G1 |]. split; [exact G2 |].
    exists (("<iframe id=" ++ dq) ++ id), rest''.
    rewrite Em, R1, R2. now rewrite !append_assoc_str. }
  induction data as [| y data IH]; cbn [BaseVisibliService.search_iframe].
  - destruct (match match_atoms _ _ "" with Some _ => _ | None => _ end) eqn:E;
      [| discriminate].
    intros G. inversion G. subst. now apply Hhere.
  - destruct (match match_atoms _ _ (String y data) with Some _ => _ | None => _ end) eqn:E.
    + intros G. inversion G. subst. now apply Hhere.
    + intros G. destruct (IH G) as (G1 & G2 & a & b & Eab).
      split; [exact G1 |]. split; [exact G2 |].
      exists (String y a), b. simpl. now rewrite Eab.
Qed.

Lemma search_iframe_src_witness :
  "http://x.org/" <> ""
  /\ contains dq "http://x.org/" = false
  /\ exists a b,
      "<iframe id=" ++ dq ++ "f" ++ dq ++ " src=" ++ dq ++ "http://x.org/" ++ dq ++ ">"
      = a ++ (dq ++ " src=" ++ dq) ++ "http://x.org/" ++ (dq ++ ">") ++ b.
Proof.
  apply (search_iframe_src
           ("<iframe id=" ++ dq ++ "f" ++ dq ++ " src=" ++ dq ++ "http://x.org/" ++ dq ++ ">")
           "http://x.org/").
  vm_compute. reflexivity.
Defined.

(** *** Construction and the registry *)






(** The registry: a name it does not list is a [ValueError] and nothing
    is constructed; a name it lists constructs the class listed with it;
    no name and no class is listed twice, and every class is listed. *)
Theorem factory_registry `{PyLib} `{Resolver} :
  (forall name, ~ In name (map fst _factory_map) ->
      factory name = Fails (ValueError ("Unknown service " ++ name)))
  /\ (forall name cls, In (name, cls) _factory_map -> factory name = construct cls)
  /\ NoDup (map fst _factory_map)
  /\ NoDup (map snd _factory_map)
  /\ (forall cls, In cls (map snd _factory_map)).
Proof.
  assert (Hget : forall name, ~ In name (map fst _factory_map) ->
                              dict_get name _factory_map = None).
  { intros name. generalize _factory_map. intros m.
    induction m as [| [k v] m IH]; simpl; [reflexivity |].
    intros N. destruct (String.eqb_spec k name); [tauto |]. apply IH. tauto. }
  assert (Hk : NoDup (map fst _factory_map)).
  { simpl. repeat constructor; simpl; intuition discriminate. }
  split; [| split; [| split; [| split]]].
  - intros name N. unfold factory. now rewrite (Hget name N).
  - intros name cls Hin. unfold factory.
    simpl in Hin.
    repeat (destruct Hin as [Hin | Hin];
            [inversion Hin; subst; reflexivity |]).
    contradiction.
  - exact Hk.
  - simpl. repeat constructor; simpl; intuition discriminate.
  - intros cls. destruct cls; simpl; tauto.
Qed.

(** With the reference library and a resolver that finds an address, the
    registry builds every HTTP service with the path and the host name
    its URL has. *)
Theorem registry_builds_services :
  forall cls k,
    http_class cls = Some k ->
    exists i,
      @construct py_ref resolve_all cls = Built (http_instance cls i)
      /\ inst_service i = k /\ _host i = "192.0.2.1".
Proof.
  intros cls k Hk.
  destruct cls; simpl in Hk; inversion Hk; subst k;
    eexists; (split; [vm_compute; reflexivity | split; reflexivity]).
Qed.

Lemma registry_builds_services_witness :
  exists i,
    @construct py_ref resolve_all svc_snipurl = Built (http_instance svc_snipurl i)
    /\ inst_service i = Snipurl.self /\ _host i = "192.0.2.1".
Proof.
  apply (registry_builds_services svc_snipurl Snipurl.self eq_refl).
Defined.

(** *** Calls that always end in an outcome *)













(** *** Services that close the connection *)

Lemma lc_fetch_close `{Transport} self code method :
  http_keepalive self = false -> leaves_closed (_http_fetch self code method).
Proof.
  intros K c. unfold _http_fetch, conn_exchange. rewrite K.
  destruct (server _ _); reflexivity.
Qed.

Lemma lc_bind_pure {A B} (m : M A) (k : A -> M B) :
  leaves_closed m -> (forall a c, snd (k a c) = c) -> leaves_closed (bind m k).
Proof.
  intros Hm Hk c. unfold bind. specialize (Hm c).
  destruct (m c) as [[a | e] c']; simpl in *; [now rewrite Hk | exact Hm].
Qed.

Lemma simple_fetch_pure_tail `{Transport} cls code self resp c :
  (forall r c0, snd (SimpleService.unexpected_http_status_of cls self code r c0) = c0) ->
  snd ((if status_in (status resp) (SimpleService.http_status_redirect cls) then
          match getheader resp "Location" with
          | Some location =>
              if truthy location then ret (PyStr location)
              else raise (ServiceException "No Location header after HTTP status 301")
          | None => raise (ServiceException "No Location header after HTTP status 301")
          end
        else if status_in (status resp) (SimpleService.http_status_no_redirect cls) then
          raise (NoRedirectException None)
        else if status_in (status resp) (SimpleService.http_status_code_blocked cls) then
          raise (CodeBlockedException None)
        else if status_in (status resp) (SimpleService.http_status_blocked cls) then
          raise (BlockedException None)
        else SimpleService.unexpected_http_status_of cls self code resp) c) = c.
Proof.
  intros Hh.
  repeat match goal with
         | |- context [if ?b then _ else _] => destruct b
         | |- context [match ?x with Some _ => _ | None => _ end] => destruct x
         end; try reflexivity; apply Hh.
Qed.

(** Twitter and Pixorial, whose [http_keepalive] is false, leave the
    connection closed after every call of [fetch], whatever the answer;
    Bitly, which keeps connections alive, still closes its connection when
    it meets the bundles redirect (301 [Moved Permanently]). *)
Theorem fetch_close_policy `{PyLib} `{Transport} (code : string) :
  leaves_closed (Twitter.fetch code)
  /\ leaves_closed (Pixorial.fetch code)
  /\ (forall c c' resp location,
      _http_head Bitly.self code c = (Ok resp, c') ->
      status resp = 301%Z -> getheader resp "Location" = Some location ->
      location <> "" -> reason resp = "Moved Permanently" ->
      is_open (snd (Bitly.fetch code c)) = false).
Proof.
  split; [| split].
  - unfold Twitter.fetch, SimpleService.fetch, _http_head.
    apply lc_bind_pure.
    + apply lc_bind_pure; [now apply lc_fetch_close | reflexivity].
    + intros resp c. apply simple_fetch_pure_tail. reflexivity.
  - unfold Pixorial.fetch, _http_head. cbv zeta.
    apply lc_bind_pure.
    + apply lc_bind_pure; [now apply lc_fetch_close | reflexivity].
    + intros resp c.
      repeat match goal with
             | |- context [if ?b then _ else _] => destruct b
             | |- context [match ?x with Some _ => _ | None => _ end] => destruct x
             end; reflexivity.
  - intros c c' resp location Hhead Hst Hloc Hne Hr. unfold Bitly.fetch.
    rewrite (bind_ok _ _ _ _ _ Hhead), Hst, Hloc, (truthy_true _ Hne), Hr.
    reflexivity.
Qed.

Lemma fetch_close_policy_witness :
  is_open (snd (@Bitly.fetch py_ref
                  (scripted [Answer (moved_to 301 "Moved Permanently" "http://bit.ly/x") ""])
                  "abc" fresh_connection)) = false.
Proof.
  apply (proj2 (proj2 (@fetch_close_policy py_ref
                  (scripted [Answer (moved_to 301 "Moved Permanently" "http://bit.ly/x") ""])
                  "abc"))
           fresh_connection _ _ "http://bit.ly/x"
           (head_scripted Bitly.self "abc" _ "" [] eq_refl) eq_refl eq_refl
           ltac:(discriminate) eq_refl).
Defined.

(** [YourlsService.__init__]: the exception of [urlparse] escapes; on an
    API URL that [urlparse] accepts, a scheme other than http and https is
    a [ValueError], and an instance that is built has a path that is not
    empty: the path of the API URL, or [/] when the URL has none. *)
Theorem yourls_init `{PyLib} (cls : YourlsService.class) :
  (forall e, urlparse (YourlsService.yourls_api_url cls) = Raise e ->
             YourlsService.__init__ cls = Raise e)
  /\ forall parsed, urlparse (YourlsService.yourls_api_url cls) = Ok parsed ->
  (scheme parsed <> "http" -> scheme parsed <> "https" ->
   YourlsService.__init__ cls
   = Raise (ValueError ("Unknown scheme " ++ scheme parsed)))
  /\ (forall i, YourlsService.__init__ cls = Ok i ->
      YourlsService._path i <> ""
      /\ (path parsed <> "" -> YourlsService._path i = path parsed)
      /\ (path parsed = "" -> YourlsService._path i = "/")).
Proof.
  unfold YourlsService.__init__. split; [intros e E; now rewrite E |].
  intros parsed Eparsed. rewrite Eparsed. split.
  - intros N1 N2.
    destruct (String.eqb_spec (scheme parsed) "http"); [contradiction |].
    destruct (String.eqb_spec (scheme parsed) "https"); [contradiction |].
    reflexivity.
  - intros i E.
    assert (Hp : YourlsService._path i
                 = if truthy (path parsed) then path parsed else "/").
    { destruct (scheme _ =? "http").
      - destruct (httplib_connection false _); inversion E. reflexivity.
      - destruct (scheme _ =? "https"); [| discriminate].
        destruct (httplib_connection true _); inversion E. reflexivity. }
    rewrite Hp. split; [| split].
    + destruct (truthy _) eqn:Et; [| discriminate].
      unfold truthy in Et. intros Z. rewrite Z in Et. discriminate.
    + intros N. now rewrite (truthy_true _ N).
    + intros Z. now rewrite Z.
Qed.

Lemma yourls_init_witness :
  @YourlsService.__init__ py_ref (YourlsService.mkClass "gopher://vbly.us/api" 36)
  = Raise (ValueError "Unknown scheme gopher")
  /\ @YourlsService.__init__ py_ref (YourlsService.mkClass "http://[vbly.us/api" 36)
     = Raise (ValueError "Invalid IPv6 URL").
Proof.
  split.
  - apply (proj1 (proj2 (@yourls_init py_ref (YourlsService.mkClass "gopher://vbly.us/api" 36))
                    _ ltac:(vm_compute; reflexivity)));
      vm_compute; discriminate.
  - apply (proj1 (@yourls_init py_ref (YourlsService.mkClass "http://[vbly.us/api" 36))).
    vm_compute. reflexivity.
Defined.

(** *** Tinyurl's pages *)

(** [Tinyurl._parse_errorhelp] returns a value exactly when the page
    carries a meta refresh to [http://tinyurl.com/errorb.php] with one
    [url] value and one [path] value equal to [/] and the code, and then
    it is the [url] value; a page without the meta refresh, or with one
    that [urlparse] accepts and that fails a test, is [ServiceException];
    the exception of [urlparse] on the target of the meta refresh
    escapes. *)
Theorem tinyurl_errorhelp `{PyLib} (code data : string) :
  (errorhelp_redirect data = None ->
   exists m, Tinyurl._parse_errorhelp code data = Raise (ServiceException m))
  /\ (forall target, errorhelp_redirect data = Some target ->
      (forall u, trusted_errorhelp code target u ->
                 Tinyurl._parse_errorhelp code data = Ok (PyStr u))
      /\ (forall parsed, urlparse target = Ok parsed ->
          (forall u, ~ trusted_errorhelp code target u) ->
          exists m, Tinyurl._parse_errorhelp code data = Raise (ServiceException m))
      /\ (forall e, urlparse target = Raise e ->
          Tinyurl._parse_errorhelp code data = Raise e))
  /\ (forall v, Tinyurl._parse_errorhelp code data = Ok v ->
      exists target u,
        errorhelp_redirect data = Some target
        /\ trusted_errorhelp code target u /\ v = PyStr u).
Proof.
  assert (Hcases : forall target parsed,
             errorhelp_redirect data = Some target ->
             urlparse target = Ok parsed ->
             (exists u, trusted_errorhelp code target u
                        /\ Tinyurl._parse_errorhelp code data = Ok (PyStr u))
             \/ ((forall u, ~ trusted_errorhelp code target u)
                 /\ exists m, Tinyurl._parse_errorhelp code data
                              = Raise (ServiceException m))).
  { intros target parsed E Hp0.
    assert (Hno : forall u, trusted_errorhelp code target u ->
                scheme parsed = "http" /\ netloc parsed = "tinyurl.com"
                /\ path parsed = "/errorb.php"
                /\ dict_get "url" (parse_qs (query parsed)) = Some [u]
                /\ dict_get "path" (parse_qs (query parsed)) = Some ["/" ++ code]).
    { intros u (parsed' & Hp' & T). rewrite Hp0 in Hp'. inversion Hp'. subst parsed'.
      exact T. }
    unfold Tinyurl._parse_errorhelp.
    unfold errorhelp_redirect in E. rewrite E, Hp0.
    destruct (String.eqb_spec (scheme parsed) "http") as [Hs | Hs];
      [| right; split; [intros u T; apply Hno in T; tauto | eexists; reflexivity]].
    destruct (String.eqb_spec (netloc parsed) "tinyurl.com") as [Hn | Hn];
      [| right; split; [intros u T; apply Hno in T; tauto | eexists; reflexivity]].
    destruct (String.eqb_spec (path parsed) "/errorb.php") as [Hp | Hp];
      [| right; split; [intros u T; apply Hno in T; tauto | eexists; reflexivity]].
    cbn [negb orb].
    destruct (one_value "url" _) as [u |] eqn:Hu.
    - destruct (one_value "path" _) as [p |] eqn:Hq.
      + apply one_value_spec in Hu. apply one_value_spec in Hq.
        destruct (String.eqb_spec p ("/" ++ code)) as [E' | E']; cbn [negb].
        * subst p. left. exists u. split; [| reflexivity].
          exists parsed. repeat split; assumption.
        * right. split; [| eexists; reflexivity].
          intros u' T. apply Hno in T. destruct T as (_ & _ & _ & _ & Hq').
          rewrite Hq in Hq'. inversion Hq'. contradiction.
      + right. split; [| eexists; reflexivity].
        intros u' T. apply Hno in T. destruct T as (_ & _ & _ & _ & Hq').
        apply one_value_spec in Hq'. congruence.
    - right. split; [| eexists; reflexivity].
      intros u' T. apply Hno in T. destruct T as (_ & _ & _ & Hu' & _).
      apply one_value_spec in Hu'. congruence. }
  assert (Hraise : forall target e,
             errorhelp_redirect data = Some target -> urlparse target = Raise e ->
             Tinyurl._parse_errorhelp code data = Raise e).
  { intros target e E Hp0. unfold Tinyurl._parse_errorhelp.
    unfold errorhelp_redirect in E. now rewrite E, Hp0. }
  split; [| split].
  - intros E. unfold Tinyurl._parse_errorhelp. unfold errorhelp_redirect in E.
    rewrite E. eexists. reflexivity.
  - intros target E. split; [| split].
    + intros u Ht. pose proof Ht as (parsed & Hp0 & _).
      destruct (Hcases target parsed E Hp0) as [(u' & Ht' & E') | (Hno & _)].
      * destruct Ht as (p1 & Hp1 & _ & _ & _ & Hu & _).
        destruct Ht' as (p2 & Hp2 & _ & _ & _ & Hu' & _).
        rewrite Hp1 in Hp2. inversion Hp2. subst p2.
        rewrite Hu in Hu'. inversion Hu'. subst. exact E'.
      * destruct (Hno u Ht).
    + intros parsed Hp0 Hno.
      destruct (Hcases target parsed E Hp0) as [(u' & Ht' & _) | (_ & Hm)].
      * destruct (Hno u' Ht').
      * exact Hm.
    + intros e Hp0. exact (Hraise target e E Hp0).
  - intros v Ev. destruct (errorhelp_redirect data) as [target |] eqn:E.
    + destruct (urlparse target) as [parsed | e] eqn:Hp0.
      * destruct (Hcases target parsed eq_refl Hp0) as [(u & Ht & E') | (_ & m & E')].
        -- rewrite E' in Ev. inversion Ev. now exists target, u.
        -- rewrite E' in Ev. discriminate.
      * rewrite (Hraise target e eq_refl Hp0) in Ev. discriminate.
    + unfold Tinyurl._parse_errorhelp in Ev. unfold errorhelp_redirect in E.
      rewrite E in Ev. discriminate.
Qed.

Lemma tinyurl_errorhelp_witness :
  @Tinyurl._parse_errorhelp py_ref "abc"
     (errorhelp_page
        "http://tinyurl.com/errorb.php?url=http%3A%2F%2Fexample.org%2F&path=%2Fabc")
  = Ok (PyStr "http://example.org/")
  /\ @Tinyurl._parse_errorhelp py_ref "abc"
       (errorhelp_page "http://[tinyurl.com/errorb.php?url=x&path=%2Fabc")
     = Raise (ValueError "Invalid IPv6 URL")
  /\ exists m,
      @Tinyurl._parse_errorhelp py_ref "abc" (errorhelp_page "http://example.org/")
      = Raise (ServiceException m).
Proof.
  split; [| split].
  - apply (proj1 (proj1 (proj2 (@tinyurl_errorhelp py_ref "abc"
        (errorhelp_page
           "http://tinyurl.com/errorb.php?url=http%3A%2F%2Fexample.org%2F&path=%2Fabc")))
        _ ltac:(vm_compute; reflexivity))).
    eexists. split; [vm_compute; reflexivity | repeat split; reflexivity].
  - apply (proj2 (proj2 (proj1 (proj2 (@tinyurl_errorhelp py_ref "abc"
        (errorhelp_page "http://[tinyurl.com/errorb.php?url=x&path=%2Fabc")))
        _ ltac:(vm_compute; reflexivity)))).
    vm_compute. reflexivity.
  - apply (proj1 (proj2 (proj1 (proj2 (@tinyurl_errorhelp py_ref "abc"
        (errorhelp_page "http://example.org/")))
        _ ltac:(vm_compute; reflexivity))) _ ltac:(vm_compute; reflexivity)).
    intros u (parsed & Hp & _ & Hn & _). vm_compute in Hp. inversion Hp. subst parsed.
    vm_compute in Hn. discriminate.
Defined.

(** The affiliate preview of Tinyurl: after a 301 whose [X-tiny] header
    starts with [aff], the second exchange is a GET of
    [preview.php?num=] and the code, and it must answer 200: any other
    status is [ServiceException], and a 200 page without the redirect link
    is [ServiceException] as well. *)
Theorem tinyurl_preview `{PyLib} `{Transport} (code : string) (c c1 c2 : connection)
    (resp1 resp2 : response) (location tiny data : string) :
  _http_head Tinyurl.self code c = (Ok resp1, c1) -> status resp1 = 301%Z ->
  getheader resp1 "Location" = Some location -> location <> "" ->
  getheader resp1 "X-tiny" = Some tiny -> take 3 tiny = "aff" ->
  _http_get Tinyurl.self ("preview.php?num=" ++ code) c1 = (Ok (resp2, data), c2) ->
  (status resp2 <> 200%Z ->
   Tinyurl.fetch code c
   = (Raise (ServiceException ("Unexpected HTTP status " ++ fmt_i (status resp2)
                               ++ " on preview page")), c2))
  /\ (status resp2 = 200%Z ->
      contains ("<a id=" ++ dq ++ "redirecturl" ++ dq ++ " href=" ++ dq) data = false ->
      Tinyurl.fetch code c = (Raise (ServiceException "No redirect on preview page"), c2)).
Proof.
  intros Hhead Hst Hloc Hne Htiny Haff Hget.
  assert (Ht : truthy tiny = true).
  { apply truthy_true. intros Z. subst tiny. discriminate. }
  unfold Tinyurl.fetch. rewrite (bind_ok _ _ _ _ _ Hhead), Hst.
  change (301 =? 200)%Z with false. change (301 =? 301)%Z with true. cbv iota.
  rewrite Hloc, (truthy_true _ Hne), Htiny, Ht, Haff.
  change (true && ("aff" =? "aff")) with true. cbv iota.
  unfold Tinyurl._preview. rewrite (bind_ok _ _ _ _ _ Hget). cbv zeta. cbn [fst snd].
  split.
  - intros N. now rewrite (eqb_status_neq _ _ N).
  - intros E N. rewrite E. change (negb (200 =? 200)%Z) with false. cbv iota.
    assert (S : re_search lazy_group true
                  (lit ("<a id=" ++ dq ++ "redirecturl" ++ dq ++ " href=" ++ dq))
                  (lit (dq ++ ">Proceed to this site") ++ [Dot] ++ lit "</a>")%list data
                = None).
    { clear - N. induction data as [| y data IH]; cbn [re_search].
      - cbn [contains] in N. apply orb_false_iff in N. destruct N as [N _].
        destruct (match_atoms true _ "") as [r |] eqn:Em; [| reflexivity].
        apply match_atoms_lit in Em.
        assert (P : prefix ("<a id=" ++ dq ++ "redirecturl" ++ dq ++ " href=" ++ dq) "" = true)
          by (apply prefix_append; now exists r).
        congruence.
      - cbn [contains] in N. apply orb_false_iff in N. destruct N as [N1 N2].
        destruct (match_atoms true _ (String y data)) as [r |] eqn:Em.
        + apply match_atoms_lit in Em.
          assert (P : prefix ("<a id=" ++ dq ++ "redirecturl" ++ dq ++ " href=" ++ dq)
                        (String y data) = true)
            by (apply prefix_append; now exists r).
          congruence.
        + now apply IH. }
    now rewrite S.
Qed.

Lemma tinyurl_preview_witness :
  exists c2,
    @Tinyurl.fetch py_ref
      (scripted [Answer (mkResponse 301 "Moved"
                           [("location", "http://redirect.tinyurl.com/api/click?out=x");
                            ("x-tiny", "aff 0.01")]) "";
                 Answer (resp_of 503 []) ""])
      "abc" fresh_connection
    = (Raise (ServiceException "Unexpected HTTP status 503 on preview page"), c2).
Proof.
  eexists.
  apply (proj1 (@tinyurl_preview py_ref
                  (scripted [Answer (mkResponse 301 "Moved"
                                       [("location", "http://redirect.tinyurl.com/api/click?out=x");
                                        ("x-tiny", "aff 0.01")]) "";
                             Answer (resp_of 503 []) ""])
                  "abc" fresh_connection (after_head Tinyurl.self "abc") _ _ (resp_of 503 [])
                  "http://redirect.tinyurl.com/api/click?out=x" "aff 0.01" ""
                  (head_scripted Tinyurl.self "abc" _ "" _ eq_refl) eq_refl eq_refl
                  ltac:(discriminate) eq_refl eq_refl eq_refl)).
  discriminate.
Defined.

(** [Googl.fetch] beside status 200: 403 is [BlockedException], 404 is
    [NoRedirectException], any other status is [ServiceException], and a
    failure of the transport is [ServiceException] on a closed
    connection. *)
Theorem googl_fetch_statuses `{PyLib} `{Transport} (code : string) (c : connection) :
  match server (List.length (sent c)) (googl_request code) with
  | Answer resp data =>
      (status resp = 403%Z -> fst (Googl.fetch code c) = Raise (BlockedException None))
      /\ (status resp = 404%Z -> fst (Googl.fetch code c) = Raise (NoRedirectException None))
      /\ (~ In (status resp) [200; 403; 404]%Z ->
          fst (Googl.fetch code c)
          = Raise (ServiceException ("Unexpected HTTP status " ++ fmt_i (status resp))))
  | HTTPException e =>
      Googl.fetch code c
      = (Raise (ServiceException ("HTTP exception: " ++ e)),
         mkConnection (googl_request code :: sent c) false)
  | socket_error e =>
      Googl.fetch code c
      = (Raise (ServiceException ("Socket error: " ++ e)),
         mkConnection (googl_request code :: sent c) false)
  end.
Proof.
  unfold Googl.fetch, conn_exchange, googl_request.
  destruct (server _ _) as [resp data | e | e]; [| reflexivity | reflexivity].
  cbn [fst]. split; [| split].
  - intros E. now rewrite E.
  - intros E. now rewrite E.
  - intros N.
    rewrite !eqb_status_neq; [reflexivity | | |];
      intros E; apply N; rewrite E; simpl; tauto.
Qed.
